(** * gio-cloth: the host loop of the tearable-cloth simulation

    A shallow embedding of [loop] (main.go): the per-frame sequence
    guarded initialisation, force accumulation, draining of the event
    queue and the simulation step, together with the pointer state
    ([Mouse]) and the cloth controller ([Cloth]) it drives.

    Conventions.
    - Go [int] values are [Z]; the loop performs no arithmetic that can
      leave the 64-bit range for a viewport the window system reports.
    - [float32]/[float64]/[unit.Dp] quantities are exact rationals [Q]:
      the host delivers finite numbers and the loop only adds, compares
      and stores them.  Sums are therefore exact here where the program
      rounds; what is stated about the scroll accumulator speaks of the
      sum the loop computed and of the order of values, not of the size
      of a rounding error.
    - [time.Time] is a reading in nanoseconds on one time line, and
      [time.Duration] a number of nanoseconds.
    - Every call the loop makes on the cloth, the window or the scroll
      setter is recorded, in program order, in a ghost [trace]. *)

From Stdlib Require Import ZArith QArith List String Ascii Bool Lia Lqa.
Import ListNotations.
Local Open Scope Z_scope.

(** ** The parts of Gio the loop looks at *)

(** Package [gioui.org/io/key]. *)
Module key.

Definition Name := string.

(** [NameEscape] is the three-byte UTF-8 encoding of U+238B. *)
Definition NameEscape : Name :=
  String (ascii_of_nat 226) (String (ascii_of_nat 142)
    (String (ascii_of_nat 139) EmptyString)).
Definition NameSpace : Name := "Space"%string.
Definition NameCtrl : Name := "Ctrl"%string.
Definition NameAlt : Name := "Alt"%string.

(** [Modifiers] is a bit set; [ModCtrl = 1 << 0] and so on. *)
Definition Modifiers := Z.
Definition ModCtrl : Modifiers := 1.
Definition ModCommand : Modifiers := 2.
Definition ModShift : Modifiers := 4.
Definition ModAlt : Modifiers := 8.
Definition ModSuper : Modifiers := 16.

Inductive State := Press | Release.

Definition State_eqb (a b : State) : bool :=
  match a, b with
  | Press, Press | Release, Release => true
  | _, _ => false
  end.

Record Event := mkEvent {
  name : Name;
  modifiers : Modifiers;
  state : State
}.

End key.

(** Package [gioui.org/f32]. *)
Module f32.
Record Point := Pt { X : Q; Y : Q }.
End f32.

(** Package [gioui.org/io/pointer]. *)
Module pointer.

Inductive Kind :=
  Cancel | Press | Release | Move | Drag | Enter | Leave | Scroll.

(** [Buttons] is a bit set of the buttons held. *)
Definition Buttons := Z.
Definition ButtonPrimary : Buttons := 1.
Definition ButtonSecondary : Buttons := 2.
Definition ButtonTertiary : Buttons := 4.

Record Event := mkEvent {
  type : Kind;
  buttons : Buttons;
  position : f32.Point;
  scroll : f32.Point;
  modifiers : key.Modifiers
}.

End pointer.

(** What [gtx.Queue.Events(w)] yields: key events, pointer events, and
    events of other types, which the loop passes over. *)
Inductive InputEvent :=
| KeyEvent (e : key.Event)
| PointerEvent (e : pointer.Event)
| OtherInput.

(** ** The pointer state (type [Mouse]) *)

Module Mouse.

(** Modelled from the spec: the declaration of [Mouse] is not part of
    main.go.  The fields are those of the spec's pointer/interaction
    state: current and previous position, drag flag, left and right
    button flags, control-modifier flag, the accumulating force and
    the interaction radius with its configured maximum. *)
Record t := mk {
  x : Q; y : Q;
  px : Q; py : Q;
  scrollY : Q;
  maxScrollY : Q;
  force : Q;
  leftButton : bool;
  rightButton : bool;
  dragging : bool;
  ctrlDown : bool
}.

(** Modelled from the spec: reads the left-button flag. *)
Definition getLeftButton (m : t) : bool := leftButton m.

(** Modelled from the spec: raises the left-button flag. *)
Definition setLeftButton (m : t) : t :=
  mk (x m) (y m) (px m) (py m) (scrollY m) (maxScrollY m) (force m)
     true (rightButton m) (dragging m) (ctrlDown m).

(** Modelled from the spec: clears the left-button flag. *)
Definition releaseLeftButton (m : t) : t :=
  mk (x m) (y m) (px m) (py m) (scrollY m) (maxScrollY m) (force m)
     false (rightButton m) (dragging m) (ctrlDown m).

(** Modelled from the spec: raises the right-button flag. *)
Definition setRightButton (m : t) : t :=
  mk (x m) (y m) (px m) (py m) (scrollY m) (maxScrollY m) (force m)
     (leftButton m) true (dragging m) (ctrlDown m).

(** Modelled from the spec: clears the right-button flag. *)
Definition releaseRightButton (m : t) : t :=
  mk (x m) (y m) (px m) (py m) (scrollY m) (maxScrollY m) (force m)
     (leftButton m) false (dragging m) (ctrlDown m).

(** Modelled from the spec: stores the per-frame drag flag. *)
Definition setDragging (b : bool) (m : t) : t :=
  mk (x m) (y m) (px m) (py m) (scrollY m) (maxScrollY m) (force m)
     (leftButton m) (rightButton m) b (ctrlDown m).

(** Modelled from the spec: stores the control-modifier flag. *)
Definition setCtrlDown (b : bool) (m : t) : t :=
  mk (x m) (y m) (px m) (py m) (scrollY m) (maxScrollY m) (force m)
     (leftButton m) (rightButton m) (dragging m) b.

(** Modelled from the spec: the force is "an accumulating force scalar
    that grows with how long the left button has been held"; the hold
    duration handed in (seconds) is added to it. *)
Definition increaseForce (dt : Q) (m : t) : t :=
  mk (x m) (y m) (px m) (py m) (scrollY m) (maxScrollY m)
     (force m + dt)%Q
     (leftButton m) (rightButton m) (dragging m) (ctrlDown m).

(** Modelled from the spec: the force "resets to zero on release". *)
Definition resetForce (m : t) : t :=
  mk (x m) (y m) (px m) (py m) (scrollY m) (maxScrollY m) 0%Q
     (leftButton m) (rightButton m) (dragging m) (ctrlDown m).

(** Modelled from the spec: stores the interaction radius. *)
Definition setScrollY (v : Q) (m : t) : t :=
  mk (x m) (y m) (px m) (py m) v (maxScrollY m) (force m)
     (leftButton m) (rightButton m) (dragging m) (ctrlDown m).

(** Modelled from the spec: the position the pointer event carries. *)
Definition getCurrentPosition (m : t) (ev : pointer.Event) : f32.Point :=
  pointer.position ev.

(** Modelled from the spec: the current position becomes the previous
    one and the given point the current one. *)
Definition updatePosition (nx ny : Q) (m : t) : t :=
  mk nx ny (x m) (y m) (scrollY m) (maxScrollY m) (force m)
     (leftButton m) (rightButton m) (dragging m) (ctrlDown m).

End Mouse.

(** ** The cloth controller (type [Cloth]) *)

Module Cloth.

Record Vec2 := vec { vx : Q; vy : Q }.

Record Particle := mkParticle {
  position : Vec2;
  previousPosition : Vec2;
  pinned : bool
}.

(** A constraint names its two particles by index in the store. *)
Record Constraint := mkConstraint {
  first : Z;
  second : Z;
  restLength : Q;
  active : bool
}.

(** [color.NRGBA]. *)
Record NRGBA := nrgba { R : Z; G : Z; B : Z; A : Z }.

(** Modelled from the spec: the declaration of [Cloth] is not part of
    main.go.  The cloth owns its pixel dimensions and spacing, the
    damping factor, the particle store, the constraint set, the
    initialised flag and the origin used to rebuild the grid. *)
Record t := mk {
  width : Z;
  height : Z;
  spacing : Z;
  damping : Q;
  color : NRGBA;
  particles : list Particle;
  constraints : list Constraint;
  isInitialized : bool;
  startX : Z;
  startY : Z
}.

(** Modelled from the spec: a new cloth holds its configuration and
    nothing else; it is built on the first frame. *)
Definition NewCloth (w h sp : Z) (damp : Q) (col : NRGBA) : t :=
  mk w h sp damp col [] [] false 0 0.

(** Modelled from the spec: the logical grid has one particle every
    [spacing] pixels across the pixel dimensions. *)
Definition gridWidth (c : t) : nat := Z.to_nat (Z.quot (width c) (spacing c)).
Definition gridHeight (c : t) : nat := Z.to_nat (Z.quot (height c) (spacing c)).

(** Modelled from the spec: the particle of grid cell (row, col) sits
    [spacing] pixels from its neighbours, starts at rest, and is
    pinned exactly in row 0. *)
Definition particleAt (c : t) (ox oy : Z) (row col : nat) : Particle :=
  let p := vec (inject_Z (ox + Z.of_nat col * spacing c))
               (inject_Z (oy + Z.of_nat row * spacing c)) in
  mkParticle p p (Nat.eqb row 0).

(** Modelled from the spec: grid cell (row, col) is particle
    [row * gridWidth + col] of the store. *)
Definition buildParticles (c : t) (ox oy : Z) : list Particle :=
  flat_map (fun row => map (particleAt c ox oy row) (seq 0 (gridWidth c)))
           (seq 0 (gridHeight c)).

(** Modelled from the spec: one active constraint per horizontally and
    per vertically adjacent pair, with rest length [spacing]. *)
Definition constraintsAt (c : t) (row col : nat) : list Constraint :=
  let gw := Z.of_nat (gridWidth c) in
  let gh := Z.of_nat (gridHeight c) in
  let i := Z.of_nat row * gw + Z.of_nat col in
  let rest := inject_Z (spacing c) in
  (if Z.of_nat col + 1 <? gw then [mkConstraint i (i + 1) rest true] else [])
  ++ (if Z.of_nat row + 1 <? gh
      then [mkConstraint i (i + gw) rest true] else []).

Definition buildConstraints (c : t) : list Constraint :=
  flat_map (fun row => flat_map (constraintsAt c row) (seq 0 (gridWidth c)))
           (seq 0 (gridHeight c)).

(** Modelled from the spec: [init] builds the particles from the
    origin, pins row 0, builds the constraints and marks the cloth
    initialised.  The configurations the spec rejects at [init] (a
    dimension or spacing that is not positive) are not built by the
    host, whose constants are positive. *)
Definition Init (c : t) (ox oy : Z) : t :=
  mk (width c) (height c) (spacing c) (damping c) (color c)
     (buildParticles c ox oy) (buildConstraints c) true ox oy.

(** Modelled from the spec: the teardown half of [reset], which
    discards every particle and constraint. *)
Definition discard (c : t) : t :=
  mk (width c) (height c) (spacing c) (damping c) (color c)
     [] [] false (startX c) (startY c).

(** Modelled from the spec: [reset] "discards all particle/constraint
    state and re-runs init". *)
Definition Reset (c : t) (ox oy : Z) : t := Init (discard c) ox oy.

(** The numerical step (integrator, pointer interaction, solver
    passes) is not part of main.go and needs square roots; it is a
    parameter.  It sees the configuration, the viewport, the pointer
    state and the time step, and yields the next particle store and
    constraint set. *)
Definition Simulation : Type :=
  t -> Z * Z -> Mouse.t -> Q -> list Particle * list Constraint.

(** Modelled from the spec: [update] runs the integrator, the pointer
    interaction and the solver over the particle store and the
    constraint set; configuration, origin and the initialised flag are
    not its business. *)
Definition Update (sim : Simulation) (c : t) (viewport : Z * Z)
    (m : Mouse.t) (dt : Q) : t :=
  let next := sim c viewport m dt in
  mk (width c) (height c) (spacing c) (damping c) (color c)
     (fst next) (snd next) (isInitialized c) (startX c) (startY c).

End Cloth.

(** ** Go's [time] package, as far as the loop uses it *)

Definition minDuration : Z := - 2 ^ 63.
Definition maxDuration : Z := 2 ^ 63 - 1.

(** [t.Sub(u)]: the difference, saturated to the range of [Duration]. *)
Definition Sub (t u : Z) : Z := Z.max minDuration (Z.min maxDuration (t - u)).

(** [d.Seconds()]. *)
Definition Seconds (d : Z) : Q := d # 1000000000.

(** ** Constants and locals of [loop] *)

Definition windowWidth : Z := 940.
Definition windowHeight : Z := 580.

(** [var clothW int = windowWidth * 1.3] and
    [var clothH int = windowHeight * 0.4]: constant expressions, which
    Go only accepts because their values are integers. *)
Definition clothW : Z := Z.quot (windowWidth * 13) 10.
Definition clothH : Z := Z.quot (windowHeight * 4) 10.

Definition col : Cloth.NRGBA := Cloth.nrgba 154 154 154 255.

(** [unit.Dp(200)], the [maxScrollY] the loop configures. *)
Definition configuredMaxScrollY : Q := 200.

(** The literal time step of [cloth.Update(gtx, mouse, 0.015)]. *)
Definition timeStep : Q := 0.015.

(** [int(f)] for a float [f]: truncation towards zero. *)
Definition truncate (q : Q) : Z := Z.quot (Qnum q) (Zpos (Qden q)).

(** [gtx.Constraints.Max]. *)
Record Context := mkContext { maxX : Z; maxY : Z }.

(** [startX := width/2 - clothW/2]. *)
Definition originX (width : Z) : Z := Z.quot width 2 - Z.quot clothW 2.

(** [startY := int(float64(height) * 0.2)]. *)
Definition originY (height : Z) : Z := truncate (inject_Z height * 0.2).

Definition Qltb (a b : Q) : bool := negb (Qle_bool b a).

(** The calls the loop makes, in the order it makes them; [Drain] marks
    an event taken from the frame's queue. *)
Inductive Action :=
| CallInit (x y : Z)
| CallReset (x y : Z)
| CallUpdate (m : Mouse.t) (dt : Q)
| CallSetScrollY (v : Q)
| PerformClose
| Drain (ev : InputEvent).

Record LoopState := mkLoop {
  scrollY : Q;
  initTime : Z;
  deltaTime : Z;
  isDragging : bool;
  mouse : Mouse.t;
  cloth : Cloth.t;
  trace : list Action
}.

Definition withScrollY (v : Q) (s : LoopState) : LoopState :=
  mkLoop v (initTime s) (deltaTime s) (isDragging s) (mouse s) (cloth s) (trace s).
Definition withInitTime (t : Z) (s : LoopState) : LoopState :=
  mkLoop (scrollY s) t (deltaTime s) (isDragging s) (mouse s) (cloth s) (trace s).
Definition withDeltaTime (d : Z) (s : LoopState) : LoopState :=
  mkLoop (scrollY s) (initTime s) d (isDragging s) (mouse s) (cloth s) (trace s).
Definition withIsDragging (b : bool) (s : LoopState) : LoopState :=
  mkLoop (scrollY s) (initTime s) (deltaTime s) b (mouse s) (cloth s) (trace s).
Definition onMouse (f : Mouse.t -> Mouse.t) (s : LoopState) : LoopState :=
  mkLoop (scrollY s) (initTime s) (deltaTime s) (isDragging s) (f (mouse s))
         (cloth s) (trace s).
Definition onCloth (f : Cloth.t -> Cloth.t) (s : LoopState) : LoopState :=
  mkLoop (scrollY s) (initTime s) (deltaTime s) (isDragging s) (mouse s)
         (f (cloth s)) (trace s).
Definition emit (a : Action) (s : LoopState) : LoopState :=
  mkLoop (scrollY s) (initTime s) (deltaTime s) (isDragging s) (mouse s)
         (cloth s) (trace s ++ [a]).

(** The state [loop] starts from: zero-valued locals, the mouse with its
    configured maximum, and the cloth of [NewCloth]. *)
Definition initialMouse : Mouse.t :=
  Mouse.mk 0 0 0 0 0 configuredMaxScrollY 0 false false false false.

Definition initialState : LoopState :=
  mkLoop 0 0 0 false initialMouse (Cloth.NewCloth clothW clothH 8 0.99 col) [].

(** ** The frame loop *)

(** A frame event: the viewport of its layout context, the reading
    [time.Now()] gives at the head of the frame, and the queued input
    events, each with the reading [time.Now()] gives while it is
    handled. *)
Record FrameEvent := mkFrame {
  gtx : Context;
  now : Z;
  queue : list (Z * InputEvent)
}.

(** What [w.Events()] delivers. *)
Inductive WindowEvent :=
| DestroyEvent (err : option string)
| Frame (f : FrameEvent)
| OtherWindowEvent.

Inductive Outcome :=
| Blocked (s : LoopState)
| Returned (err : option string) (s : LoopState).

Definition final (o : Outcome) : LoopState :=
  match o with Blocked s | Returned _ s => s end.

Section Loop.

Variable simulate : Cloth.Simulation.

Definition callInit (x y : Z) (s : LoopState) : LoopState :=
  onCloth (fun c => Cloth.Init c x y) (emit (CallInit x y) s).

Definition callReset (x y : Z) (s : LoopState) : LoopState :=
  onCloth (fun c => Cloth.Reset c x y) (emit (CallReset x y) s).

Definition callUpdate (g : Context) (dt : Q) (s : LoopState) : LoopState :=
  onCloth (fun c => Cloth.Update simulate c (maxX g, maxY g) (mouse s) dt)
          (emit (CallUpdate (mouse s) dt) s).

Definition callSetScrollY (v : Q) (s : LoopState) : LoopState :=
  onMouse (Mouse.setScrollY v) (emit (CallSetScrollY v) s).

(** Lines 97-104: the guarded first-frame initialisation. *)
Definition guardedInit (g : Context) (s : LoopState) : LoopState :=
  if negb (Cloth.isInitialized (cloth s)) then
    let width := maxX g in
    let height := maxY g in
    callInit (originX width) (originY height) s
  else s.

(** Lines 126-129: the force grows while the left button is down. *)
Definition accumulateForce (t : Z) (s : LoopState) : LoopState :=
  if Mouse.getLeftButton (mouse s) then
    let s1 := withDeltaTime (Sub t (initTime s)) s in
    onMouse (Mouse.increaseForce (Seconds (deltaTime s1))) s1
  else s.

(** Lines 132-146: key events. *)
Definition handleKey (g : Context) (e : key.Event) (s : LoopState)
    : LoopState :=
  let s1 :=
    if key.State_eqb (key.state e) key.Press then
      if String.eqb (key.name e) key.NameSpace then
        let width := maxX g in
        let height := maxY g in
        callReset (originX width) (originY height) s
      else s
    else s in
  if String.eqb (key.name e) key.NameEscape then emit PerformClose s1 else s1.

(** Lines 150-178: the switch on the type of a pointer event; [t] is
    the reading of [time.Now()]. *)
Definition handlePointerType (t : Z) (ev : pointer.Event) (s : LoopState)
    : LoopState :=
  match pointer.type ev with
  | pointer.Scroll =>
      let v := (scrollY s + f32.Y (pointer.scroll ev))%Q in
      let v := if Qltb v 0 then 0%Q
               else if Qltb (Mouse.maxScrollY (mouse s)) v
                    then Mouse.maxScrollY (mouse s)
                    else v in
      callSetScrollY v (withScrollY v s)
  | pointer.Move =>
      let pos := Mouse.getCurrentPosition (mouse s) ev in
      onMouse (Mouse.updatePosition (f32.X pos) (f32.Y pos)) s
  | pointer.Press =>
      let s1 := if pointer.modifiers ev =? key.ModCtrl
                then onMouse (Mouse.setCtrlDown true) s else s in
      withInitTime t (onMouse Mouse.setLeftButton s1)
  | pointer.Release =>
      let s1 := withIsDragging false s in
      let s2 := onMouse Mouse.resetForce s1 in
      let s3 := onMouse Mouse.releaseLeftButton s2 in
      let s4 := onMouse Mouse.releaseRightButton s3 in
      let s5 := onMouse (Mouse.setDragging (isDragging s4)) s4 in
      onMouse (Mouse.setCtrlDown false) s5
  | pointer.Drag => withIsDragging true s
  | _ => s
  end.

(** Lines 179-189: the switch on the buttons of a pointer event. *)
Definition handlePointerButtons (ev : pointer.Event) (s : LoopState)
    : LoopState :=
  if pointer.buttons ev =? pointer.ButtonPrimary then
    let s1 := onMouse Mouse.setLeftButton s in
    let pos := Mouse.getCurrentPosition (mouse s1) ev in
    let s2 := onMouse (Mouse.updatePosition (f32.X pos) (f32.Y pos)) s1 in
    onMouse (Mouse.setDragging (isDragging s2)) s2
  else if pointer.buttons ev =? pointer.ButtonSecondary then
    let s1 := onMouse Mouse.setRightButton s in
    let pos := Mouse.getCurrentPosition (mouse s1) ev in
    onMouse (Mouse.updatePosition (f32.X pos) (f32.Y pos)) s1
  else s.

Definition handlePointer (t : Z) (ev : pointer.Event) (s : LoopState)
    : LoopState :=
  handlePointerButtons ev (handlePointerType t ev s).

(** One turn of [for _, ev := range gtx.Queue.Events(w)]. *)
Definition handleEvent (g : Context) (s : LoopState) (tev : Z * InputEvent)
    : LoopState :=
  let s0 := emit (Drain (snd tev)) s in
  match snd tev with
  | KeyEvent e => handleKey g e s0
  | PointerEvent e => handlePointer (fst tev) e s0
  | OtherInput => s0
  end.

Definition drainQueue (g : Context) (q : list (Z * InputEvent))
    (s : LoopState) : LoopState :=
  fold_left (handleEvent g) q s.

(** The state in which the frame's queue is drained: after the guarded
    initialisation and the force accumulation. *)
Definition beforeEvents (f : FrameEvent) (s : LoopState) : LoopState :=
  accumulateForce (now f) (guardedInit (gtx f) s).

(** [case system.FrameEvent], lines 91-209; the drawing operations have
    no effect on the state modelled here. *)
Definition frame (f : FrameEvent) (s : LoopState) : LoopState :=
  callUpdate (gtx f) timeStep (drainQueue (gtx f) (queue f) (beforeEvents f s)).

(** [loop]: events are taken from the window until a destroy event
    makes the function return. *)
Fixpoint loop (s : LoopState) (evs : list WindowEvent) : Outcome :=
  match evs with
  | [] => Blocked s
  | DestroyEvent err :: _ => Returned err s
  | Frame f :: rest => loop (frame f s) rest
  | OtherWindowEvent :: rest => loop s rest
  end.

(** The frames [loop] gets to process. *)
Fixpoint framesOf (evs : list WindowEvent) : list FrameEvent :=
  match evs with
  | [] => []
  | DestroyEvent _ :: _ => []
  | Frame f :: rest => f :: framesOf rest
  | OtherWindowEvent :: rest => framesOf rest
  end.

Definition runFrames (s : LoopState) (fs : list FrameEvent) : LoopState :=
  fold_left (fun st f => frame f st) fs s.

End Loop.

(** ** Reading the trace *)

Fixpoint initCalls (tr : list Action) : list (Z * Z) :=
  match tr with
  | [] => []
  | CallInit x y :: r => (x, y) :: initCalls r
  | _ :: r => initCalls r
  end.

Fixpoint updateSteps (tr : list Action) : list Q :=
  match tr with
  | [] => []
  | CallUpdate _ dt :: r => dt :: updateSteps r
  | _ :: r => updateSteps r
  end.

Fixpoint updateMice (tr : list Action) : list Mouse.t :=
  match tr with
  | [] => []
  | CallUpdate m _ :: r => m :: updateMice r
  | _ :: r => updateMice r
  end.

Fixpoint scrollArgs (tr : list Action) : list Q :=
  match tr with
  | [] => []
  | CallSetScrollY v :: r => v :: scrollArgs r
  | _ :: r => scrollArgs r
  end.

Fixpoint drained (tr : list Action) : list InputEvent :=
  match tr with
  | [] => []
  | Drain ev :: r => ev :: drained r
  | _ :: r => drained r
  end.

(** ** Notions used in the statements *)

(** The clamp of lines 153-157. *)
Definition clampScroll (v hi : Q) : Q :=
  if Qltb v 0 then 0%Q else if Qltb hi v then hi else v.

Definition inRange (hi v : Q) : Prop := (0 <= v)%Q /\ (v <= hi)%Q.

(** What an event adds to the trace, besides its [Drain] mark. *)
Definition keyActions (g : Context) (e : key.Event) : list Action :=
  (if key.State_eqb (key.state e) key.Press
      && String.eqb (key.name e) key.NameSpace
   then [CallReset (originX (maxX g)) (originY (maxY g))] else [])
  ++ (if String.eqb (key.name e) key.NameEscape then [PerformClose] else []).

Definition pointerActions (s : LoopState) (ev : pointer.Event) : list Action :=
  match pointer.type ev with
  | pointer.Scroll =>
      [CallSetScrollY
         (clampScroll (scrollY s + f32.Y (pointer.scroll ev))
                      (Mouse.maxScrollY (mouse s)))]
  | _ => []
  end.

Definition eventActions (g : Context) (s : LoopState) (ev : InputEvent)
    : list Action :=
  match ev with
  | KeyEvent e => keyActions g e
  | PointerEvent e => pointerActions s e
  | OtherInput => []
  end.

(** What the loop maintains about the interaction radius: the configured
    maximum never changes, and the local accumulator, the radius stored
    in the mouse and every argument of [setScrollY] are in range. *)
Record scrollInv (s : LoopState) : Prop := {
  inv_max : Mouse.maxScrollY (mouse s) = configuredMaxScrollY;
  inv_local : inRange configuredMaxScrollY (scrollY s);
  inv_mouse : inRange configuredMaxScrollY (Mouse.scrollY (mouse s));
  inv_args : Forall (inRange configuredMaxScrollY) (scrollArgs (trace s))
}.

(** Sample inputs. *)
Definition viewport0 : Context := mkContext 940 580.

Definition pressAt (btns : pointer.Buttons) (px py : Q) : pointer.Event :=
  pointer.mkEvent pointer.Press btns (f32.Pt px py) (f32.Pt 0 0) 0.

Definition releaseAt (btns : pointer.Buttons) (px py : Q) : pointer.Event :=
  pointer.mkEvent pointer.Release btns (f32.Pt px py) (f32.Pt 0 0) 0.

(** Both buttons go down, primary first; each event reports the buttons
    held after it. *)
Definition bothDown : LoopState :=
  drainQueue viewport0
    [(1000, PointerEvent (pressAt pointer.ButtonPrimary 10 10));
     (2000, PointerEvent
              (pressAt (pointer.ButtonPrimary + pointer.ButtonSecondary) 10 10))]
    initialState.

Definition isRelease (ev : InputEvent) : bool :=
  match ev with
  | PointerEvent e =>
      match pointer.type e with pointer.Release => true | _ => false end
  | _ => false
  end.

Definition noReleaseIn (q : list (Z * InputEvent)) : bool :=
  forallb (fun tev => negb (isRelease (snd tev))) q.

(** A hold that no release interrupts, frame by frame: the frame's
    clock reading is past the loop's [initTime] (the reading taken at
    the last press), and its queue holds no release event, of whichever
    button.  This is narrower than "the left button stays down": the
    release of another button during the hold is excluded, because the
    [Release] case zeroes the force whatever button was released. *)
Fixpoint holding (sim : Cloth.Simulation) (s : LoopState)
    (fs : list FrameEvent) : bool :=
  match fs with
  | [] => true
  | f :: rest =>
      (initTime s <? now f) && noReleaseIn (queue f)
      && holding sim (frame sim f s) rest
  end.

(** The secondary button is pressed at 1.2 s and released at 1.5 s while
    the primary one stays down; each event reports the buttons held
    after it. *)
Definition secondaryTap : list (Z * InputEvent) :=
  [(1200000000, PointerEvent
                  (pressAt (pointer.ButtonPrimary + pointer.ButtonSecondary)
                           10 10));
   (1500000000, PointerEvent (releaseAt pointer.ButtonPrimary 10 10))].

(** A simulation that leaves the cloth where it is. *)
Definition still : Cloth.Simulation :=
  fun c _ _ _ => (Cloth.particles c, Cloth.constraints c).

(** The primary button goes down at time 0 in the initial state. *)
Definition pressedAt0 : LoopState :=
  handleEvent viewport0 initialState
    (0, PointerEvent (pressAt pointer.ButtonPrimary 10 10)).

Definition frameAt (clock : Z) (q : list (Z * InputEvent)) : FrameEvent :=
  mkFrame viewport0 clock q.

(** ** [main] and further notions about runs *)

(** How the process ends: [os.Exit(0)], [log.Fatal(err)], or not at all
    ([app.Main()] does not return). *)
Inductive Exit :=
| ExitZero
| Fatal (err : string)
| NoExit.

(** [main], after [flag.Parse()]: [cpuprofile] is the value of the flag
    [-debug-cpuprofile], [createErr] the error of [os.Create] (looked at
    only when the flag is set), [evs] what the window delivers. *)
Definition main (sim : Cloth.Simulation) (cpuprofile : string)
    (createErr : option string) (evs : list WindowEvent) : Exit :=
  match (if String.eqb cpuprofile EmptyString then None else createErr) with
  | Some err => Fatal err
  | None =>
      match loop sim initialState evs with
      | Returned (Some err) _ => Fatal err
      | Returned None _ => ExitZero
      | Blocked _ => NoExit
      end
  end.

Definition isDestroy (e : WindowEvent) : bool :=
  match e with DestroyEvent _ => true | _ => false end.

Definition noDestroyIn (evs : list WindowEvent) : bool :=
  forallb (fun e => negb (isDestroy e)) evs.

(** The queued input of a list of frames, in the order it is handled. *)
Definition timedInputsOf (fs : list FrameEvent) : list (Z * InputEvent) :=
  flat_map queue fs.

Definition inputsOf (fs : list FrameEvent) : list InputEvent :=
  map snd (timedInputsOf fs).

(** The vertical delta of a scroll event. *)
Definition scrollDelta (ev : InputEvent) : option Q :=
  match ev with
  | PointerEvent e =>
      match pointer.type e with
      | pointer.Scroll => Some (f32.Y (pointer.scroll e))
      | _ => None
      end
  | _ => None
  end.

(** The clamped running sums of the scroll deltas of [evs], from [acc]. *)
Fixpoint clampedSums (acc hi : Q) (evs : list InputEvent) : list Q :=
  match evs with
  | [] => []
  | ev :: rest =>
      match scrollDelta ev with
      | Some d =>
          let v := clampScroll (acc + d) hi in v :: clampedSums v hi rest
      | None => clampedSums acc hi rest
      end
  end.

(** The last of these sums, [acc] when there is none. *)
Fixpoint clampedTotal (acc hi : Q) (evs : list InputEvent) : Q :=
  match evs with
  | [] => acc
  | ev :: rest =>
      match scrollDelta ev with
      | Some d => clampedTotal (clampScroll (acc + d) hi) hi rest
      | None => clampedTotal acc hi rest
      end
  end.

Definition isPress (ev : InputEvent) : bool :=
  match ev with
  | PointerEvent e =>
      match pointer.type e with pointer.Press => true | _ => false end
  | _ => false
  end.

(** The clock reading of the last press among [q], [t0] when there is
    none. *)
Fixpoint lastPress (t0 : Z) (q : list (Z * InputEvent)) : Z :=
  match q with
  | [] => t0
  | tev :: rest => lastPress (if isPress (snd tev) then fst tev else t0) rest
  end.

(** The reset and close calls of a trace. *)
Fixpoint keyCalls (tr : list Action) : list Action :=
  match tr with
  | [] => []
  | CallReset x y :: r => CallReset x y :: keyCalls r
  | PerformClose :: r => PerformClose :: keyCalls r
  | _ :: r => keyCalls r
  end.

(** What the key events of a frame's queue make the loop call. *)
Definition frameKeyCalls (f : FrameEvent) : list Action :=
  flat_map (fun tev => match snd tev with
                       | KeyEvent e => keyActions (gtx f) e
                       | _ => []
                       end)
           (queue f).

(** Relations between the flags that the loop maintains. *)
Record flagsInv (s : LoopState) : Prop := {
  fl_radius : Mouse.scrollY (mouse s) = scrollY s;
  fl_force : Mouse.leftButton (mouse s) = false -> Mouse.force (mouse s) = 0%Q;
  fl_drag : Mouse.dragging (mouse s) = true -> isDragging s = true;
  fl_ctrl : Mouse.ctrlDown (mouse s) = true -> Mouse.leftButton (mouse s) = true
}.

(** A frame with nothing queued. *)
Definition quietFrame (g : Context) (clock : Z) : FrameEvent :=
  mkFrame g clock [].

(** ** Basic facts *)

Lemma initCalls_app (a b : list Action) :
  initCalls (a ++ b) = initCalls a ++ initCalls b.
Proof.
  induction a as [|x a IH]; simpl; [reflexivity|].
  destruct x; simpl; rewrite IH; reflexivity.
Qed.

Lemma updateSteps_app (a b : list Action) :
  updateSteps (a ++ b) = updateSteps a ++ updateSteps b.
Proof.
  induction a as [|x a IH]; simpl; [reflexivity|].
  destruct x; simpl; rewrite IH; reflexivity.
Qed.

Lemma scrollArgs_app (a b : list Action) :
  scrollArgs (a ++ b) = scrollArgs a ++ scrollArgs b.
Proof.
  induction a as [|x a IH]; simpl; [reflexivity|].
  destruct x; simpl; rewrite IH; reflexivity.
Qed.

Lemma drained_app (a b : list Action) :
  drained (a ++ b) = drained a ++ drained b.
Proof.
  induction a as [|x a IH]; simpl; [reflexivity|].
  destruct x; simpl; rewrite IH; reflexivity.
Qed.

Lemma Qltb_true (a b : Q) : Qltb a b = true -> (a < b)%Q.
Proof.
  unfold Qltb. intros H. apply negb_true_iff in H.
  apply Qnot_le_lt. intros Hle. apply Qle_bool_iff in Hle. congruence.
Qed.

Lemma Qltb_false (a b : Q) : Qltb a b = false -> (b <= a)%Q.
Proof.
  unfold Qltb. intros H. apply negb_false_iff in H.
  apply Qle_bool_iff. exact H.
Qed.

Lemma clampScroll_inRange (v hi : Q) :
  (0 <= hi)%Q -> inRange hi (clampScroll v hi).
Proof.
  intros Hhi. unfold clampScroll, inRange.
  destruct (Qltb v 0) eqn:E0.
  - split; [apply Qle_refl | exact Hhi].
  - destruct (Qltb hi v) eqn:E1.
    + split; [exact Hhi | apply Qle_refl].
    + split; [apply Qltb_false; exact E0 | apply Qltb_false; exact E1].
Qed.

Ltac unfold_handlers :=
  unfold beforeEvents, handleEvent, handleKey, handlePointer,
    handlePointerButtons, handlePointerType, callSetScrollY, callReset,
    callInit, callUpdate, guardedInit, accumulateForce,
    onMouse, onCloth, emit, withScrollY, withInitTime,
    withDeltaTime, withIsDragging in *.

Ltac split_ifs :=
  repeat match goal with
         | |- context [if ?b then _ else _] => destruct b eqn:?
         end.

(** ** What an event adds to the trace *)

Lemma trace_handlePointerButtons (ev : pointer.Event) (s : LoopState) :
  trace (handlePointerButtons ev s) = trace s.
Proof.
  unfold handlePointerButtons.
  destruct (pointer.buttons ev =? pointer.ButtonPrimary);
    [reflexivity|].
  destruct (pointer.buttons ev =? pointer.ButtonSecondary); reflexivity.
Qed.

Lemma trace_handlePointerType (t : Z) (ev : pointer.Event) (s : LoopState) :
  trace (handlePointerType t ev s) = trace s ++ pointerActions s ev.
Proof.
  unfold handlePointerType, pointerActions, clampScroll.
  destruct (pointer.type ev); try (symmetry; apply app_nil_r).
  - destruct (pointer.modifiers ev =? key.ModCtrl);
      symmetry; apply app_nil_r.
  - reflexivity.
Qed.

Lemma trace_handleKey (g : Context) (e : key.Event) (s : LoopState) :
  trace (handleKey g e s) = trace s ++ keyActions g e.
Proof.
  unfold handleKey, keyActions.
  destruct (key.State_eqb (key.state e) key.Press);
    destruct (String.eqb (key.name e) key.NameSpace);
    destruct (String.eqb (key.name e) key.NameEscape);
    cbn [andb app];
    try reflexivity;
    try (symmetry; apply app_nil_r);
    try (change (trace s ++ [CallReset (originX (maxX g)) (originY (maxY g));
                             PerformClose])
           with (trace s ++ [CallReset (originX (maxX g)) (originY (maxY g))]
                          ++ [PerformClose]);
         rewrite app_assoc; reflexivity).
Qed.

Lemma trace_handleEvent (g : Context) (s : LoopState) (tev : Z * InputEvent) :
  trace (handleEvent g s tev)
  = trace s ++ Drain (snd tev) :: eventActions g s (snd tev).
Proof.
  unfold handleEvent.
  change (trace s ++ Drain (snd tev) :: eventActions g s (snd tev))
    with (trace s ++ [Drain (snd tev)] ++ eventActions g s (snd tev)).
  rewrite app_assoc.
  destruct (snd tev) as [e|e|]; cbn [eventActions].
  - rewrite trace_handleKey. reflexivity.
  - unfold handlePointer.
    rewrite trace_handlePointerButtons, trace_handlePointerType.
    reflexivity.
  - rewrite app_nil_r. reflexivity.
Qed.

Lemma initCalls_eventActions (g : Context) (s : LoopState) (ev : InputEvent) :
  initCalls (Drain ev :: eventActions g s ev) = [].
Proof.
  destruct ev as [e|e|]; cbn [eventActions initCalls].
  - unfold keyActions.
    destruct (key.State_eqb (key.state e) key.Press
              && String.eqb (key.name e) key.NameSpace);
      destruct (String.eqb (key.name e) key.NameEscape); reflexivity.
  - unfold pointerActions. destruct (pointer.type e); reflexivity.
  - reflexivity.
Qed.

(** What draining a queue adds to the trace holds no call to [Init]. *)
Lemma trace_drainQueue (g : Context) (q : list (Z * InputEvent)) :
  forall s, exists d,
    trace (drainQueue g q s) = trace s ++ d /\ initCalls d = [].
Proof.
  induction q as [|tev q IH]; intros s.
  - exists []. split; [symmetry; apply app_nil_r | reflexivity].
  - change (drainQueue g (tev :: q) s)
      with (drainQueue g q (handleEvent g s tev)).
    destruct (IH (handleEvent g s tev)) as (d & Hd & Hi).
    exists ((Drain (snd tev) :: eventActions g s (snd tev)) ++ d). split.
    + rewrite Hd, trace_handleEvent, <- app_assoc. reflexivity.
    + rewrite initCalls_app, initCalls_eventActions, Hi. reflexivity.
Qed.

Lemma mouse_handleKey (g : Context) (e : key.Event) (s : LoopState) :
  mouse (handleKey g e s) = mouse s.
Proof.
  unfold handleKey.
  destruct (key.State_eqb (key.state e) key.Press);
    destruct (String.eqb (key.name e) key.NameSpace);
    destruct (String.eqb (key.name e) key.NameEscape); reflexivity.
Qed.

Lemma drainQueue_app (g : Context) (q1 q2 : list (Z * InputEvent))
    (s : LoopState) :
  drainQueue g (q1 ++ q2) s = drainQueue g q2 (drainQueue g q1 s).
Proof. unfold drainQueue. apply fold_left_app. Qed.

Lemma mouse_callUpdate (sim : Cloth.Simulation) (g : Context) (dt : Q)
    (s : LoopState) :
  mouse (callUpdate sim g dt s) = mouse s.
Proof. reflexivity. Qed.

Lemma trace_callUpdate (sim : Cloth.Simulation) (g : Context) (dt : Q)
    (s : LoopState) :
  trace (callUpdate sim g dt s) = trace s ++ [CallUpdate (mouse s) dt].
Proof. reflexivity. Qed.

(** ** The scroll accumulator *)

Lemma configuredMax_nonneg : (0 <= configuredMaxScrollY)%Q.
Proof. unfold configuredMaxScrollY. discriminate. Qed.

Lemma scrollInv_initial : scrollInv initialState.
Proof.
  constructor; simpl; try reflexivity; try constructor;
    unfold inRange, configuredMaxScrollY; try split; discriminate.
Qed.

Lemma scrollInv_emit (a : Action) (s : LoopState) :
  scrollArgs [a] = [] -> scrollInv s -> scrollInv (emit a s).
Proof.
  intros Ha [H1 H2 H3 H4]. constructor; simpl; auto.
  rewrite scrollArgs_app, Ha, app_nil_r. exact H4.
Qed.

Lemma scrollInv_handlePointerType (t : Z) (ev : pointer.Event) (s : LoopState) :
  scrollInv s -> scrollInv (handlePointerType t ev s).
Proof.
  intros [H1 H2 H3 H4].
  unfold handlePointerType.
  destruct (pointer.type ev);
    try (unfold_handlers; split_ifs; constructor; simpl; assumption).
  fold (clampScroll (scrollY s + f32.Y (pointer.scroll ev))
          (Mouse.maxScrollY (mouse s))).
  rewrite H1.
  pose proof (clampScroll_inRange (scrollY s + f32.Y (pointer.scroll ev))
                configuredMaxScrollY configuredMax_nonneg) as Hc.
  unfold_handlers. constructor; simpl; auto.
  rewrite scrollArgs_app. apply Forall_app. split; [exact H4|].
  simpl. constructor; [exact Hc | constructor].
Qed.

Lemma scrollInv_handlePointerButtons (ev : pointer.Event) (s : LoopState) :
  scrollInv s -> scrollInv (handlePointerButtons ev s).
Proof.
  intros [H1 H2 H3 H4]. unfold_handlers.
  split_ifs; constructor; simpl; assumption.
Qed.

Lemma scrollInv_handleKey (g : Context) (e : key.Event) (s : LoopState) :
  scrollInv s -> scrollInv (handleKey g e s).
Proof.
  intros [H1 H2 H3 H4]. unfold_handlers.
  split_ifs; constructor; simpl; auto;
    repeat rewrite scrollArgs_app; simpl; repeat rewrite app_nil_r; assumption.
Qed.

Lemma scrollInv_handleEvent (g : Context) (s : LoopState) (tev : Z * InputEvent) :
  scrollInv s -> scrollInv (handleEvent g s tev).
Proof.
  intros H. unfold handleEvent.
  assert (H0 : scrollInv (emit (Drain (snd tev)) s))
    by (apply scrollInv_emit; [reflexivity | exact H]).
  destruct (snd tev).
  - apply scrollInv_handleKey; exact H0.
  - apply scrollInv_handlePointerButtons, scrollInv_handlePointerType; exact H0.
  - exact H0.
Qed.

Lemma scrollInv_drainQueue (g : Context) (q : list (Z * InputEvent)) :
  forall s, scrollInv s -> scrollInv (drainQueue g q s).
Proof.
  induction q as [|tev q IH]; intros s H; simpl; [exact H|].
  apply IH, scrollInv_handleEvent, H.
Qed.

Lemma scrollInv_frame (sim : Cloth.Simulation) (f : FrameEvent) (s : LoopState) :
  scrollInv s -> scrollInv (frame sim f s).
Proof.
  intros H. unfold frame.
  assert (Hb : scrollInv (beforeEvents f s)).
  { destruct H as [H1 H2 H3 H4]. unfold_handlers.
    split_ifs; constructor; simpl in *; auto;
      repeat rewrite scrollArgs_app; simpl; repeat rewrite app_nil_r;
      assumption. }
  pose proof (scrollInv_drainQueue (gtx f) (queue f) _ Hb) as [H1 H2 H3 H4].
  unfold_handlers. constructor; simpl; auto.
  rewrite scrollArgs_app. simpl. rewrite app_nil_r. exact H4.
Qed.

Lemma scrollInv_loop (sim : Cloth.Simulation) (evs : list WindowEvent) :
  forall s, scrollInv s -> scrollInv (final (loop sim s evs)).
Proof.
  induction evs as [|e evs IH]; intros s H; simpl; [exact H|].
  destruct e as [err|f|]; simpl.
  - exact H.
  - apply IH, scrollInv_frame, H.
  - apply IH, H.
Qed.

(** C1.  Handling a scroll event passes to [setScrollY] the sum of the
    accumulator and the event's scroll delta, replaced by 0 when it is
    below 0 and by [maxScrollY] when it is above [maxScrollY].  Whatever
    window events arrive, and whatever scroll deltas the pointer events
    among them carry, every value the loop passes to [setScrollY] lies
    in [0, maxScrollY] (200, as configured); so do the loop's
    accumulator and the radius stored in the mouse.  Clamping is a plain
    assignment: [loop] is a total function and has no error outcome for
    an out-of-range delta. *)
Theorem C1_scroll_clamped (sim : Cloth.Simulation) :
  (forall (g : Context) (s : LoopState) (t : Z) (btns : pointer.Buttons)
          (pos : f32.Point) (dx dy : Q) (mods : key.Modifiers),
      let ev := pointer.mkEvent pointer.Scroll btns pos (f32.Pt dx dy) mods in
      let sum := (scrollY s + dy)%Q in
      let hi := Mouse.maxScrollY (mouse s) in
      scrollArgs (trace (handleEvent g s (t, PointerEvent ev)))
      = scrollArgs (trace s)
          ++ [if Qltb sum 0 then 0%Q else if Qltb hi sum then hi else sum])
  /\ (forall evs : list WindowEvent,
        let s := final (loop sim initialState evs) in
        Forall (fun v => (0 <= v)%Q /\ (v <= configuredMaxScrollY)%Q)
               (scrollArgs (trace s))
        /\ ((0 <= scrollY s)%Q /\ (scrollY s <= configuredMaxScrollY)%Q)
        /\ ((0 <= Mouse.scrollY (mouse s))%Q
            /\ (Mouse.scrollY (mouse s) <= configuredMaxScrollY)%Q)
        /\ Mouse.maxScrollY (mouse s) = 200%Q).
Proof.
  split.
  - intros g s t btns pos dx dy mods ev sum hi.
    rewrite trace_handleEvent, scrollArgs_app. reflexivity.
  - intros evs s.
    destruct (scrollInv_loop sim evs initialState scrollInv_initial)
      as [H1 H2 H3 H4].
    fold s in H1, H2, H3, H4.
    repeat split; try apply H2; try apply H3; try exact H1.
    exact H4.
Qed.

(** ** Pointer events *)

(** The [Release] case of the switch on the event type, in closed form. *)
Lemma handlePointerType_release (t : Z) (btns : pointer.Buttons)
    (pos scr : f32.Point) (mods : key.Modifiers) (s : LoopState) :
  handlePointerType t (pointer.mkEvent pointer.Release btns pos scr mods) s
  = mkLoop (scrollY s) (initTime s) (deltaTime s) false
      (Mouse.mk (Mouse.x (mouse s)) (Mouse.y (mouse s))
         (Mouse.px (mouse s)) (Mouse.py (mouse s))
         (Mouse.scrollY (mouse s)) (Mouse.maxScrollY (mouse s)) 0%Q
         false false false false)
      (cloth s) (trace s).
Proof. reflexivity. Qed.

(** The state of a release event's handling, field by field. *)
Lemma release_fields (g : Context) (t : Z) (btns : pointer.Buttons)
    (pos scr : f32.Point) (mods : key.Modifiers) (s : LoopState) :
  let ev := pointer.mkEvent pointer.Release btns pos scr mods in
  let s' := handleEvent g s (t, PointerEvent ev) in
  Mouse.leftButton (mouse s') = (btns =? pointer.ButtonPrimary)
  /\ Mouse.rightButton (mouse s') = (btns =? pointer.ButtonSecondary)
  /\ Mouse.dragging (mouse s') = false
  /\ Mouse.ctrlDown (mouse s') = false
  /\ Mouse.force (mouse s') = 0%Q
  /\ isDragging s' = false.
Proof.
  intros ev s'. subst s' ev.
  unfold handleEvent, handlePointer. cbn [snd fst].
  rewrite handlePointerType_release.
  unfold handlePointerButtons. cbn [pointer.buttons].
  destruct (btns =? pointer.ButtonPrimary) eqn:E1.
  - apply Z.eqb_eq in E1. subst btns. repeat split.
  - destruct (btns =? pointer.ButtonSecondary) eqn:E2; repeat split.
Qed.

(** C2, as stated, fails: when the secondary button is released while
    the primary one is still down, the release event reports the
    primary button, and after its handling the left-button flag is
    set, not cleared.  A frame whose queue is these two presses and
    this release hands its simulation update a pointer state with the
    left-button flag set. *)
Lemma C2_release_keeps_primary :
  let release := (3000, PointerEvent (releaseAt pointer.ButtonPrimary 10 10)) in
  let s' := handleEvent viewport0 bothDown release in
  ~ (Mouse.dragging (mouse s') = false
     /\ Mouse.leftButton (mouse s') = false
     /\ Mouse.force (mouse s') = 0%Q)
  /\ map Mouse.leftButton
       (updateMice
          (trace (frame still
                    (frameAt 1000
                       [(1000, PointerEvent
                                 (pressAt pointer.ButtonPrimary 10 10));
                        (2000, PointerEvent
                                 (pressAt (pointer.ButtonPrimary
                                           + pointer.ButtonSecondary) 10 10));
                        release])
                    initialState)))
     = [true].
Proof.
  intros release s'. split.
  - intros [_ [H _]]. vm_compute in H. discriminate H.
  - vm_compute. reflexivity.
Qed.

(** C2, amended.  After a release event is handled, the drag flag (of
    the loop and of the mouse) is cleared and the force is zero; the
    left-button flag is cleared unless the event reports exactly the
    primary button as still held, in which case it is set.  When the
    release is the last event of a frame's queue, this is the pointer
    state the frame's simulation update receives. *)
Theorem C2_release_returns_to_idle (sim : Cloth.Simulation) (g : Context)
    (t : Z) (btns : pointer.Buttons) (pos scr : f32.Point)
    (mods : key.Modifiers) :
  let ev := pointer.mkEvent pointer.Release btns pos scr mods in
  (forall s,
      let s' := handleEvent g s (t, PointerEvent ev) in
      Mouse.dragging (mouse s') = false
      /\ isDragging s' = false
      /\ Mouse.force (mouse s') = 0%Q
      /\ Mouse.leftButton (mouse s') = (btns =? pointer.ButtonPrimary))
  /\ (forall s clock q,
        let f := mkFrame g clock (q ++ [(t, PointerEvent ev)]) in
        exists m tr,
          trace (frame sim f s) = tr ++ [CallUpdate m timeStep]
          /\ Mouse.dragging m = false
          /\ Mouse.force m = 0%Q
          /\ Mouse.leftButton m = (btns =? pointer.ButtonPrimary)).
Proof.
  intros ev. split.
  - intros s s'.
    destruct (release_fields g t btns pos scr mods s)
      as (Hl & _ & Hd & _ & Hf & Hi).
    repeat split; assumption.
  - intros s clock q f.
    unfold frame. rewrite trace_callUpdate.
    eexists. eexists. split; [reflexivity|].
    change (queue f) with (q ++ [(t, PointerEvent ev)]).
    change (gtx f) with g.
    rewrite drainQueue_app.
    change (drainQueue g [(t, PointerEvent ev)]
              (drainQueue g q (beforeEvents f s)))
      with (handleEvent g (drainQueue g q (beforeEvents f s))
              (t, PointerEvent ev)).
    destruct (release_fields g t btns pos scr mods
                (drainQueue g q (beforeEvents f s)))
      as (Hl & _ & Hd & _ & Hf & _).
    repeat split; assumption.
Qed.

(** C10, as stated, fails: when the primary button is released while
    the secondary one is still down, the release event reports the
    secondary button and the right-button flag is set after the
    event. *)
Lemma C10_release_keeps_secondary :
  let s := drainQueue viewport0
             [(1000, PointerEvent (pressAt pointer.ButtonSecondary 10 10));
              (2000, PointerEvent
                 (pressAt (pointer.ButtonPrimary + pointer.ButtonSecondary)
                          10 10))]
             initialState in
  let s' := handleEvent viewport0 s
              (3000, PointerEvent (releaseAt pointer.ButtonSecondary 10 10)) in
  ~ (Mouse.leftButton (mouse s') = false
     /\ Mouse.rightButton (mouse s') = false
     /\ Mouse.dragging (mouse s') = false
     /\ Mouse.ctrlDown (mouse s') = false
     /\ Mouse.force (mouse s') = 0%Q).
Proof.
  intros s s' [_ [H _]]. vm_compute in H. discriminate H.
Qed.

(** C10, amended.  Every release event, whatever its buttons, leaves the
    dragging flag and the control-modifier flag cleared and the force at
    zero.  The [Release] case clears both button flags in one step; the
    switch on the event's buttons that follows sets the left flag again
    when the event reports exactly the primary button, and the right
    flag when it reports exactly the secondary button.  So after the
    event the left flag is set iff its buttons are [ButtonPrimary] and
    the right flag iff they are [ButtonSecondary]. *)
Theorem C10_release_clears_flags (g : Context) (t : Z)
    (btns : pointer.Buttons) (pos scr : f32.Point) (mods : key.Modifiers)
    (s : LoopState) :
  let ev := pointer.mkEvent pointer.Release btns pos scr mods in
  let cleared := handlePointerType t ev s in
  let s' := handleEvent g s (t, PointerEvent ev) in
  (Mouse.leftButton (mouse cleared) = false
   /\ Mouse.rightButton (mouse cleared) = false
   /\ Mouse.dragging (mouse cleared) = false
   /\ Mouse.ctrlDown (mouse cleared) = false
   /\ Mouse.force (mouse cleared) = 0%Q)
  /\ (Mouse.leftButton (mouse s') = (btns =? pointer.ButtonPrimary)
      /\ Mouse.rightButton (mouse s') = (btns =? pointer.ButtonSecondary)
      /\ Mouse.dragging (mouse s') = false
      /\ Mouse.ctrlDown (mouse s') = false
      /\ Mouse.force (mouse s') = 0%Q
      /\ isDragging s' = false).
Proof.
  intros ev cleared s'. split.
  - repeat split.
  - apply release_fields.
Qed.


(** ** Key events *)

(** C6.  Handling a key event does exactly this: when it is a press of
    Space, the loop calls the cloth's reset with the origin computed
    from the frame's viewport ([width/2 - clothW/2], [int(height*0.2)]);
    when its name is Escape (a press in particular), the loop performs
    the window-close action; nothing else happens: the pointer state and
    the loop's locals are unchanged, the cloth is unchanged unless it
    was reset, and the trace gets no other call.  Every key event in a
    frame's queue is handled this way before the frame ends. *)
Theorem C6_key_events (sim : Cloth.Simulation) (g : Context) (t : Z)
    (e : key.Event) :
  let isSpacePress :=
    key.State_eqb (key.state e) key.Press
    && String.eqb (key.name e) key.NameSpace in
  let isEscape := String.eqb (key.name e) key.NameEscape in
  let ox := Z.quot (maxX g) 2 - Z.quot clothW 2 in
  let oy := truncate (inject_Z (maxY g) * 0.2) in
  let calls := (if isSpacePress then [CallReset ox oy] else [])
               ++ (if isEscape then [PerformClose] else []) in
  (forall s : LoopState,
      let s' := handleEvent g s (t, KeyEvent e) in
      trace s' = trace s ++ Drain (KeyEvent e) :: calls
      /\ cloth s'
         = (if isSpacePress then Cloth.Reset (cloth s) ox oy else cloth s)
      /\ mouse s' = mouse s
      /\ scrollY s' = scrollY s
      /\ initTime s' = initTime s
      /\ deltaTime s' = deltaTime s
      /\ isDragging s' = isDragging s)
  /\ (forall (s : LoopState) (clock : Z) (q1 q2 : list (Z * InputEvent)),
        let f := mkFrame g clock (q1 ++ (t, KeyEvent e) :: q2) in
        exists before after,
          trace (frame sim f s)
          = before ++ Drain (KeyEvent e) :: calls ++ after).
Proof.
  intros isSpacePress isEscape ox oy calls.
  split.
  - intros s s'. split.
    + subst s'. rewrite trace_handleEvent. reflexivity.
    + subst s' isSpacePress isEscape ox oy.
      unfold handleEvent, handleKey. cbn [snd fst].
      destruct (key.State_eqb (key.state e) key.Press);
        destruct (String.eqb (key.name e) key.NameSpace);
        destruct (String.eqb (key.name e) key.NameEscape);
        repeat split.
  - intros s clock q1 q2 f.
    unfold frame. rewrite trace_callUpdate.
    change (queue f) with (q1 ++ (t, KeyEvent e) :: q2).
    change (gtx f) with g.
    rewrite drainQueue_app.
    set (s1 := drainQueue g q1 (beforeEvents f s)).
    change (drainQueue g ((t, KeyEvent e) :: q2) s1)
      with (drainQueue g q2 (handleEvent g s1 (t, KeyEvent e))).
    set (s2 := drainQueue g q2 (handleEvent g s1 (t, KeyEvent e))).
    destruct (trace_drainQueue g q2 (handleEvent g s1 (t, KeyEvent e)))
      as (d & Hd & _).
    fold s2 in Hd.
    exists (trace s1), (d ++ [CallUpdate (mouse s2) timeStep]).
    rewrite Hd, trace_handleEvent.
    cbn [snd eventActions].
    change (keyActions g e) with calls.
    rewrite <- !app_assoc. cbn [app]. reflexivity.
Qed.

(** ** The simulation step *)

Lemma updateSteps_handleEvent (g : Context) (s : LoopState)
    (tev : Z * InputEvent) :
  updateSteps (trace (handleEvent g s tev)) = updateSteps (trace s).
Proof.
  rewrite trace_handleEvent, updateSteps_app.
  assert (H : updateSteps (Drain (snd tev) :: eventActions g s (snd tev)) = []).
  { destruct (snd tev) as [e|e|]; cbn [eventActions updateSteps].
    - unfold keyActions.
      destruct (key.State_eqb (key.state e) key.Press
                && String.eqb (key.name e) key.NameSpace);
        destruct (String.eqb (key.name e) key.NameEscape); reflexivity.
    - unfold pointerActions. destruct (pointer.type e); reflexivity.
    - reflexivity. }
  rewrite H. apply app_nil_r.
Qed.

Lemma updateSteps_drainQueue (g : Context) (q : list (Z * InputEvent)) :
  forall s, updateSteps (trace (drainQueue g q s)) = updateSteps (trace s).
Proof.
  induction q as [|tev q IH]; intros s; [reflexivity|].
  change (drainQueue g (tev :: q) s) with (drainQueue g q (handleEvent g s tev)).
  rewrite IH. apply updateSteps_handleEvent.
Qed.

Lemma trace_beforeEvents (f : FrameEvent) (s : LoopState) :
  trace (beforeEvents f s)
  = trace s ++ (if Cloth.isInitialized (cloth s) then []
                else [CallInit (originX (maxX (gtx f)))
                               (originY (maxY (gtx f)))]).
Proof.
  unfold beforeEvents, accumulateForce, guardedInit.
  destruct (Cloth.isInitialized (cloth s)); cbn [negb].
  - destruct (Mouse.getLeftButton (mouse s)); symmetry; apply app_nil_r.
  - destruct (Mouse.getLeftButton
                (mouse (callInit (originX (maxX (gtx f)))
                                 (originY (maxY (gtx f))) s)));
      reflexivity.
Qed.

Lemma updateSteps_frame (sim : Cloth.Simulation) (f : FrameEvent)
    (s : LoopState) :
  updateSteps (trace (frame sim f s)) = updateSteps (trace s) ++ [timeStep].
Proof.
  unfold frame. rewrite trace_callUpdate, updateSteps_app.
  rewrite updateSteps_drainQueue, trace_beforeEvents, updateSteps_app.
  destruct (Cloth.isInitialized (cloth s)); cbn [updateSteps];
    rewrite app_nil_r; reflexivity.
Qed.

Lemma updateSteps_loop (sim : Cloth.Simulation) (evs : list WindowEvent) :
  forall s,
    updateSteps (trace (final (loop sim s evs)))
    = updateSteps (trace s) ++ repeat timeStep (List.length (framesOf evs)).
Proof.
  induction evs as [|e evs IH]; intros s; cbn [loop framesOf].
  - cbn. symmetry. apply app_nil_r.
  - destruct e as [err|f|]; cbn [final List.length repeat].
    + symmetry. apply app_nil_r.
    + rewrite IH, updateSteps_frame, <- app_assoc. reflexivity.
    + apply IH.
Qed.

(** C9.  Every frame calls the cloth's update exactly once, with the
    literal time step 0.015: the step does not depend on the frame's
    clock reading, on the readings taken while its events are handled,
    or on the loop's [deltaTime].  Over a run, the time steps handed to
    the simulation are 0.015 once per frame processed. *)
Theorem C9_constant_time_step (sim : Cloth.Simulation) :
  (timeStep == 15 # 1000)%Q
  /\ (forall (s : LoopState) (g : Context) (clock : Z)
             (q : list (Z * InputEvent)),
        let f := mkFrame g clock q in
        let s2 := drainQueue g q (beforeEvents f s) in
        updateSteps (trace (frame sim f s)) = updateSteps (trace s) ++ [timeStep]
        /\ cloth (frame sim f s)
           = Cloth.Update sim (cloth s2) (maxX g, maxY g) (mouse s2) timeStep)
  /\ (forall (evs : list WindowEvent),
        updateSteps (trace (final (loop sim initialState evs)))
        = repeat timeStep (List.length (framesOf evs))).
Proof.
  split; [reflexivity|]. split.
  - intros s g clock q f s2. split.
    + apply updateSteps_frame.
    + reflexivity.
  - intros evs. rewrite updateSteps_loop. reflexivity.
Qed.

(** ** Events before physics *)

Lemma drained_handleEvent (g : Context) (s : LoopState)
    (tev : Z * InputEvent) :
  drained (trace (handleEvent g s tev)) = drained (trace s) ++ [snd tev].
Proof.
  rewrite trace_handleEvent, drained_app.
  assert (H : drained (eventActions g s (snd tev)) = []).
  { destruct (snd tev) as [e|e|]; cbn [eventActions drained].
    - unfold keyActions.
      destruct (key.State_eqb (key.state e) key.Press
                && String.eqb (key.name e) key.NameSpace);
        destruct (String.eqb (key.name e) key.NameEscape); reflexivity.
    - unfold pointerActions. destruct (pointer.type e); reflexivity.
    - reflexivity. }
  cbn [drained]. rewrite H. reflexivity.
Qed.

Lemma drained_drainQueue (g : Context) (q : list (Z * InputEvent)) :
  forall s,
    drained (trace (drainQueue g q s)) = drained (trace s) ++ map snd q.
Proof.
  induction q as [|tev q IH]; intros s.
  - cbn. symmetry. apply app_nil_r.
  - change (drainQueue g (tev :: q) s)
      with (drainQueue g q (handleEvent g s tev)).
    rewrite IH, drained_handleEvent, <- app_assoc. reflexivity.
Qed.

Lemma drained_beforeEvents (f : FrameEvent) (s : LoopState) :
  drained (trace (beforeEvents f s)) = drained (trace s).
Proof.
  rewrite trace_beforeEvents, drained_app.
  destruct (Cloth.isInitialized (cloth s)); cbn [drained]; apply app_nil_r.
Qed.

(** C5.  In every frame the whole queue is drained, in order, into the
    state the frame started with (after the guarded initialisation and
    the force accumulation), and only then does the simulation step run:
    the call to update is the last entry of the frame's trace, it
    receives the pointer state that results from folding every queued
    event, no update call occurs while events are handled, and after the
    update no event is drained and the pointer state and the loop's
    locals are those the update saw. *)
Theorem C5_events_before_update (sim : Cloth.Simulation) (f : FrameEvent)
    (s : LoopState) :
  let s2 := fold_left (handleEvent (gtx f)) (queue f) (beforeEvents f s) in
  trace (frame sim f s) = trace s2 ++ [CallUpdate (mouse s2) timeStep]
  /\ drained (trace s2) = drained (trace s) ++ map snd (queue f)
  /\ updateSteps (trace s2) = updateSteps (trace s)
  /\ drained (trace (frame sim f s)) = drained (trace s2)
  /\ mouse (frame sim f s) = mouse s2
  /\ scrollY (frame sim f s) = scrollY s2
  /\ initTime (frame sim f s) = initTime s2
  /\ isDragging (frame sim f s) = isDragging s2.
Proof.
  intros s2.
  assert (Hs2 : s2 = drainQueue (gtx f) (queue f) (beforeEvents f s))
    by reflexivity.
  split; [reflexivity|].
  split.
  { rewrite Hs2, drained_drainQueue, drained_beforeEvents. reflexivity. }
  split.
  { rewrite Hs2, updateSteps_drainQueue, trace_beforeEvents, updateSteps_app.
    destruct (Cloth.isInitialized (cloth s)); cbn [updateSteps];
      apply app_nil_r. }
  split.
  { unfold frame. rewrite trace_callUpdate, drained_app. cbn [drained].
    rewrite app_nil_r, Hs2. reflexivity. }
  repeat split.
Qed.

(** ** Guarded initialisation *)

Lemma cloth_handlePointer (t : Z) (ev : pointer.Event) (s : LoopState) :
  cloth (handlePointer t ev s) = cloth s.
Proof.
  unfold handlePointer, handlePointerButtons, handlePointerType.
  destruct (pointer.buttons ev =? pointer.ButtonPrimary);
    [| destruct (pointer.buttons ev =? pointer.ButtonSecondary)];
    destruct (pointer.type ev);
    try reflexivity;
    destruct (pointer.modifiers ev =? key.ModCtrl); reflexivity.
Qed.

Lemma initialized_handleEvent (g : Context) (s : LoopState)
    (tev : Z * InputEvent) :
  Cloth.isInitialized (cloth s) = true ->
  Cloth.isInitialized (cloth (handleEvent g s tev)) = true.
Proof.
  intros H. unfold handleEvent.
  destruct (snd tev) as [e|e|].
  - unfold handleKey.
    destruct (key.State_eqb (key.state e) key.Press);
      destruct (String.eqb (key.name e) key.NameSpace);
      destruct (String.eqb (key.name e) key.NameEscape);
      try exact H; reflexivity.
  - rewrite cloth_handlePointer. exact H.
  - exact H.
Qed.

Lemma initialized_drainQueue (g : Context) (q : list (Z * InputEvent)) :
  forall s,
    Cloth.isInitialized (cloth s) = true ->
    Cloth.isInitialized (cloth (drainQueue g q s)) = true.
Proof.
  induction q as [|tev q IH]; intros s H; [exact H|].
  apply IH, initialized_handleEvent, H.
Qed.

Lemma initialized_beforeEvents (f : FrameEvent) (s : LoopState) :
  Cloth.isInitialized (cloth (beforeEvents f s)) = true.
Proof.
  unfold beforeEvents, accumulateForce, guardedInit.
  destruct (Cloth.isInitialized (cloth s)) eqn:E; cbn [negb].
  - destruct (Mouse.getLeftButton (mouse s)); exact E.
  - destruct (Mouse.getLeftButton
                (mouse (callInit (originX (maxX (gtx f)))
                                 (originY (maxY (gtx f))) s)));
      reflexivity.
Qed.

Lemma initialized_Update (sim : Cloth.Simulation) (c : Cloth.t)
    (v : Z * Z) (m : Mouse.t) (dt : Q) :
  Cloth.isInitialized (Cloth.Update sim c v m dt) = Cloth.isInitialized c.
Proof. reflexivity. Qed.

Lemma initialized_frame (sim : Cloth.Simulation) (f : FrameEvent)
    (s : LoopState) :
  Cloth.isInitialized (cloth (frame sim f s)) = true.
Proof.
  unfold frame, callUpdate. cbn [cloth onCloth emit].
  rewrite initialized_Update.
  apply initialized_drainQueue, initialized_beforeEvents.
Qed.

Lemma trace_frame (sim : Cloth.Simulation) (f : FrameEvent) (s : LoopState) :
  exists d,
    trace (frame sim f s)
    = (trace s ++ (if Cloth.isInitialized (cloth s) then []
                   else [CallInit (originX (maxX (gtx f)))
                                  (originY (maxY (gtx f)))])) ++ d
    /\ initCalls d = [].
Proof.
  unfold frame. rewrite trace_callUpdate.
  destruct (trace_drainQueue (gtx f) (queue f) (beforeEvents f s))
    as (d & Hd & Hi).
  exists (d ++ [CallUpdate
                  (mouse (drainQueue (gtx f) (queue f) (beforeEvents f s)))
                  timeStep]).
  split.
  - rewrite Hd, trace_beforeEvents, <- !app_assoc. reflexivity.
  - rewrite initCalls_app, Hi. reflexivity.
Qed.

Lemma trace_loop_initialized (sim : Cloth.Simulation) (evs : list WindowEvent) :
  forall s,
    Cloth.isInitialized (cloth s) = true ->
    exists d, trace (final (loop sim s evs)) = trace s ++ d /\ initCalls d = [].
Proof.
  induction evs as [|e evs IH]; intros s H; cbn [loop].
  - exists []. split; [symmetry; apply app_nil_r | reflexivity].
  - destruct e as [err|f|].
    + exists []. split; [symmetry; apply app_nil_r | reflexivity].
    + destruct (IH (frame sim f s) (initialized_frame sim f s))
        as (d & Hd & Hi).
      destruct (trace_frame sim f s) as (d1 & Hd1 & Hi1).
      rewrite H in Hd1. rewrite app_nil_r in Hd1.
      exists (d1 ++ d). split.
      * rewrite Hd, Hd1, <- app_assoc. reflexivity.
      * rewrite initCalls_app, Hi1, Hi. reflexivity.
    + apply IH, H.
Qed.

Lemma loop_skips_to_first_frame (sim : Cloth.Simulation)
    (evs : list WindowEvent) :
  match framesOf evs with
  | [] => final (loop sim initialState evs) = initialState
  | f :: _ =>
      exists rest,
        final (loop sim initialState evs)
        = final (loop sim (frame sim f initialState) rest)
  end.
Proof.
  generalize initialState as s.
  induction evs as [|e evs IH]; intros s; cbn [loop framesOf].
  - reflexivity.
  - destruct e as [err|f|].
    + reflexivity.
    + exists evs. reflexivity.
    + apply IH.
Qed.

(** C4.  A frame calls [Init] exactly when the cloth is not initialised
    at its start, and every frame ends with the cloth initialised.  So
    in every run the loop calls [Init] at most once: not at all when the
    window is destroyed before its first frame, and otherwise exactly
    once, in the first frame, with the origin computed from that frame's
    viewport; that call is the first entry of the trace, ahead of every
    call to update or reset. *)
Theorem C4_init_once (sim : Cloth.Simulation) :
  (forall (s : LoopState) (f : FrameEvent),
      initCalls (trace (frame sim f s))
      = initCalls (trace s)
          ++ (if Cloth.isInitialized (cloth s) then []
              else [(originX (maxX (gtx f)), originY (maxY (gtx f)))])
      /\ Cloth.isInitialized (cloth (frame sim f s)) = true)
  /\ (forall (evs : list WindowEvent),
        let tr := trace (final (loop sim initialState evs)) in
        (List.length (initCalls tr) <= 1)%nat
        /\ match framesOf evs with
           | [] => tr = []
           | f :: _ =>
               exists rest,
                 tr = CallInit (originX (maxX (gtx f)))
                               (originY (maxY (gtx f))) :: rest
                 /\ initCalls rest = []
           end).
Proof.
  split.
  - intros s f. split; [| apply initialized_frame].
    destruct (trace_frame sim f s) as (d & Hd & Hi).
    rewrite Hd, !initCalls_app, Hi, app_nil_r.
    destruct (Cloth.isInitialized (cloth s)); reflexivity.
  - intros evs tr.
    pose proof (loop_skips_to_first_frame sim evs) as Hrun.
    assert (Hshape :
      match framesOf evs with
      | [] => tr = []
      | f :: _ =>
          exists rest,
            tr = CallInit (originX (maxX (gtx f)))
                          (originY (maxY (gtx f))) :: rest
            /\ initCalls rest = []
      end).
    { destruct (framesOf evs) as [|f fs].
      - subst tr. rewrite Hrun. reflexivity.
      - destruct Hrun as (rest & Hrest).
        destruct (trace_loop_initialized sim rest (frame sim f initialState)
                    (initialized_frame sim f initialState)) as (d & Hd & Hi).
        destruct (trace_frame sim f initialState) as (d1 & Hd1 & Hi1).
        cbn [initialState cloth trace Cloth.isInitialized Cloth.NewCloth app]
          in Hd1.
        exists (d1 ++ d). split.
        + subst tr. rewrite Hrest, Hd, Hd1. reflexivity.
        + rewrite initCalls_app, Hi1, Hi. reflexivity. }
    split; [| exact Hshape].
    destruct (framesOf evs) as [|f fs].
    + rewrite Hshape. cbn. lia.
    + destruct Hshape as (rest & Hrest & Hi).
      rewrite Hrest. cbn [initCalls List.length]. rewrite Hi. cbn. lia.
Qed.

(** ** The force accumulator *)

Lemma force_handleEvent (g : Context) (s : LoopState) (tev : Z * InputEvent) :
  isRelease (snd tev) = false ->
  Mouse.force (mouse (handleEvent g s tev)) = Mouse.force (mouse s)
  /\ (Mouse.leftButton (mouse s) = true ->
      Mouse.leftButton (mouse (handleEvent g s tev)) = true).
Proof.
  intros Hrel. unfold handleEvent.
  destruct (snd tev) as [e|e|].
  - rewrite mouse_handleKey. split; [reflexivity | intros H; exact H].
  - unfold isRelease in Hrel.
    unfold handlePointer, handlePointerButtons, handlePointerType.
    destruct (pointer.buttons e =? pointer.ButtonPrimary);
      [| destruct (pointer.buttons e =? pointer.ButtonSecondary)];
      destruct (pointer.type e); try discriminate Hrel;
      try (destruct (pointer.modifiers e =? key.ModCtrl));
      (split; [reflexivity | intros H; first [reflexivity | exact H]]).
  - split; [reflexivity | intros H; exact H].
Qed.

Lemma force_drainQueue (g : Context) (q : list (Z * InputEvent)) :
  forall s,
    noReleaseIn q = true ->
    Mouse.force (mouse (drainQueue g q s)) = Mouse.force (mouse s)
    /\ (Mouse.leftButton (mouse s) = true ->
        Mouse.leftButton (mouse (drainQueue g q s)) = true).
Proof.
  induction q as [|tev q IH]; intros s Hq.
  - split; [reflexivity | intros H; exact H].
  - cbn [noReleaseIn forallb] in Hq. apply andb_true_iff in Hq.
    destruct Hq as [Hh Ht]. apply negb_true_iff in Hh.
    change (drainQueue g (tev :: q) s)
      with (drainQueue g q (handleEvent g s tev)).
    destruct (IH (handleEvent g s tev) Ht) as [IHf IHl].
    destruct (force_handleEvent g s tev Hh) as [Hf Hl].
    split.
    + rewrite IHf. exact Hf.
    + intros H. apply IHl, Hl, H.
Qed.

Lemma Seconds_pos (t u : Z) : u < t -> (0 < Seconds (Sub t u))%Q.
Proof.
  intros H. unfold Seconds, Sub, minDuration, maxDuration, Qlt.
  cbn [Qnum Qden]. lia.
Qed.

Lemma force_beforeEvents (f : FrameEvent) (s : LoopState) :
  Mouse.leftButton (mouse s) = true ->
  Mouse.force (mouse (beforeEvents f s))
  = (Mouse.force (mouse s) + Seconds (Sub (now f) (initTime s)))%Q
  /\ Mouse.leftButton (mouse (beforeEvents f s)) = true.
Proof.
  intros H. unfold beforeEvents, accumulateForce, guardedInit.
  destruct (Cloth.isInitialized (cloth s)); cbn [negb];
    unfold Mouse.getLeftButton.
  - rewrite H. split; [reflexivity | exact H].
  - change (Mouse.leftButton
              (mouse (callInit (originX (maxX (gtx f)))
                               (originY (maxY (gtx f))) s)))
      with (Mouse.leftButton (mouse s)).
    rewrite H. split; [reflexivity | exact H].
Qed.

Lemma force_frame (sim : Cloth.Simulation) (f : FrameEvent) (s : LoopState) :
  Mouse.leftButton (mouse s) = true ->
  noReleaseIn (queue f) = true ->
  Mouse.force (mouse (frame sim f s))
  = (Mouse.force (mouse s) + Seconds (Sub (now f) (initTime s)))%Q
  /\ Mouse.leftButton (mouse (frame sim f s)) = true.
Proof.
  intros Hl Hq. unfold frame. rewrite mouse_callUpdate.
  destruct (force_beforeEvents f s Hl) as [Hf Hl'].
  destruct (force_drainQueue (gtx f) (queue f) (beforeEvents f s) Hq)
    as [Hf2 Hl2].
  split; [rewrite Hf2; exact Hf | apply Hl2, Hl'].
Qed.

Lemma force_hold (sim : Cloth.Simulation) (fs : list FrameEvent) :
  forall s,
    Mouse.leftButton (mouse s) = true ->
    holding sim s fs = true ->
    (Mouse.force (mouse s) <= Mouse.force (mouse (runFrames sim s fs)))%Q
    /\ Mouse.leftButton (mouse (runFrames sim s fs)) = true.
Proof.
  induction fs as [|f fs IH]; intros s Hl Hh.
  - split; [apply Qle_refl | exact Hl].
  - cbn [holding] in Hh. apply andb_true_iff in Hh. destruct Hh as [Hh Hrest].
    apply andb_true_iff in Hh. destruct Hh as [Hclock Hq].
    apply Z.ltb_lt in Hclock.
    destruct (force_frame sim f s Hl Hq) as [Hf Hl'].
    destruct (IH (frame sim f s) Hl' Hrest) as [Hle Hl2].
    change (runFrames sim s (f :: fs)) with (runFrames sim (frame sim f s) fs).
    split; [| exact Hl2].
    pose proof (Seconds_pos (now f) (initTime s) Hclock) as Hpos.
    rewrite Hf in Hle. lra.
Qed.

(** C3, as stated, fails.  The primary button goes down at time 0 and
    stays down; frames follow at 0.5 s, 1 s and 2 s, and between the
    last two the secondary button is pressed and released.  The
    left-button flag is set at every simulation update, so the hold of
    the left button is continuous, yet the force at 2 s is not greater
    than the force at 1 s: it is 3/2 at 1 s and 0 at 2 s, because the
    [Release] case resets the force for the release of any button. *)
Lemma C3_release_of_other_button_resets_force :
  let at1 := runFrames still pressedAt0
               [frameAt 500000000 []; frameAt 1000000000 []] in
  let at2 := runFrames still at1 [frameAt 2000000000 secondaryTap] in
  Mouse.getLeftButton (mouse pressedAt0) = true
  /\ map Mouse.leftButton (updateMice (trace at2)) = [true; true; true]
  /\ (Mouse.force (mouse at1) == 3 # 2)%Q
  /\ (Mouse.force (mouse at2) == 0)%Q
  /\ ~ (Mouse.force (mouse at1) < Mouse.force (mouse at2))%Q.
Proof.
  intros at1 at2.
  split; [vm_compute; reflexivity|].
  split; [vm_compute; reflexivity|].
  split; [vm_compute; reflexivity|].
  split; [vm_compute; reflexivity|].
  intros H. vm_compute in H. discriminate H.
Qed.

(** C3, amended.  Take a state in which the left button is down and a
    non-empty run of frames of a hold that no release interrupts (each
    frame's clock reading is past the last press, and no release event,
    of whichever button, arrives).  Then the force after the last of
    these frames is strictly greater than the force before the first,
    the button is still down, and the handling of a release event,
    whatever its buttons, leaves the force at zero. *)
Theorem C3_force_grows_while_held (sim : Cloth.Simulation) (s : LoopState)
    (f : FrameEvent) (fs : list FrameEvent) :
  Mouse.getLeftButton (mouse s) = true ->
  holding sim s (f :: fs) = true ->
  let s' := runFrames sim s (f :: fs) in
  (Mouse.force (mouse s) < Mouse.force (mouse s'))%Q
  /\ Mouse.getLeftButton (mouse s') = true
  /\ (forall g t btns pos scr mods,
        Mouse.force
          (mouse (handleEvent g s'
                    (t, PointerEvent
                          (pointer.mkEvent pointer.Release btns pos scr mods))))
        = 0%Q).
Proof.
  intros Hl Hh s'. unfold Mouse.getLeftButton in *.
  cbn [holding] in Hh. apply andb_true_iff in Hh. destruct Hh as [Hh Hrest].
  apply andb_true_iff in Hh. destruct Hh as [Hclock Hq].
  apply Z.ltb_lt in Hclock.
  destruct (force_frame sim f s Hl Hq) as [Hf Hl'].
  destruct (force_hold sim fs (frame sim f s) Hl' Hrest) as [Hle Hl2].
  pose proof (Seconds_pos (now f) (initTime s) Hclock) as Hpos.
  split; [| split].
  - subst s'.
    change (runFrames sim s (f :: fs)) with (runFrames sim (frame sim f s) fs).
    rewrite Hf in Hle. lra.
  - exact Hl2.
  - intros g t btns pos scr mods.
    apply (release_fields g t btns pos scr mods s').
Qed.

(** The hold of the spec's scenario: the button goes down at time 0, and
    frames follow at 0.5 s and at 2 s. *)
Lemma C3_force_grows_while_held_witness :
  Mouse.getLeftButton (mouse pressedAt0) = true
  /\ holding still pressedAt0 [frameAt 500000000 []; frameAt 2000000000 []]
     = true
  /\ (let s' := runFrames still pressedAt0
                  [frameAt 500000000 []; frameAt 2000000000 []] in
      (Mouse.force (mouse pressedAt0) < Mouse.force (mouse s'))%Q
      /\ Mouse.getLeftButton (mouse s') = true
      /\ (forall g t btns pos scr mods,
            Mouse.force
              (mouse (handleEvent g s'
                        (t, PointerEvent
                              (pointer.mkEvent pointer.Release btns pos scr
                                 mods))))
            = 0%Q)).
Proof.
  split; [vm_compute; reflexivity|]. split; [vm_compute; reflexivity|].
  apply (C3_force_grows_while_held still pressedAt0
           (frameAt 500000000 []) [frameAt 2000000000 []]).
  - vm_compute. reflexivity.
  - vm_compute. reflexivity.
Defined.

Example force_after_half_second_and_two_seconds :
  (Mouse.force (mouse (runFrames still pressedAt0 [frameAt 500000000 []]))
   == 1 # 2)%Q
  /\ (Mouse.force
        (mouse (runFrames still pressedAt0
                  [frameAt 500000000 []; frameAt 2000000000 []]))
      == 5 # 2)%Q.
Proof. split; vm_compute; reflexivity. Qed.

(** ** The right button *)

(** C7 (defect).  A press of the secondary button alone, in the initial
    state: the [Press] case sets the left-button flag and takes the
    press time whatever button went down, so after the frame both button
    flags are set, and the next frame, half a second later, adds half a
    second to the force.  The same holds from every state. *)
Lemma C7_right_press_sets_left_flag (sim : Cloth.Simulation) :
  (let press := pressAt pointer.ButtonSecondary 10 10 in
   let s1 := frame sim (frameAt 1000 [(1000, PointerEvent press)])
               initialState in
   let s2 := frame sim (frameAt 500001000 []) s1 in
   Mouse.leftButton (mouse initialState) = false
   /\ Mouse.leftButton (mouse s1) = true
   /\ Mouse.rightButton (mouse s1) = true
   /\ initTime s1 = 1000
   /\ (Mouse.force (mouse s1) == 0)%Q
   /\ (Mouse.force (mouse s2) == 1 # 2)%Q)
  /\ (forall g s t pos scr mods,
        let s' := handleEvent g s
                    (t, PointerEvent
                          (pointer.mkEvent pointer.Press
                             pointer.ButtonSecondary pos scr mods)) in
        Mouse.leftButton (mouse s') = true
        /\ Mouse.rightButton (mouse s') = true
        /\ initTime s' = t).
Proof.
  split.
  - vm_compute. repeat split.
  - intros g s t pos scr mods s'. subst s'.
    unfold handleEvent, handlePointer, handlePointerButtons, handlePointerType.
    cbn [snd fst pointer.type pointer.buttons pointer.modifiers].
    change (pointer.ButtonSecondary =? pointer.ButtonPrimary) with false.
    change (pointer.ButtonSecondary =? pointer.ButtonSecondary) with true.
    cbv iota.
    destruct (mods =? key.ModCtrl); repeat split.
Qed.

(** ** Reset and first initialisation *)

Lemma length_rows {A : Type} (row : nat -> list A) (w : nat) (rows : list nat) :
  (forall r, List.length (row r) = w) ->
  List.length (flat_map row rows) = (List.length rows * w)%nat.
Proof.
  intros Hrow. induction rows as [|r rows IH]; [reflexivity|].
  cbn [flat_map List.length]. rewrite length_app, IH, Hrow. reflexivity.
Qed.

Lemma length_buildParticles (c : Cloth.t) (ox oy : Z) :
  List.length (Cloth.buildParticles c ox oy)
  = (Cloth.gridHeight c * Cloth.gridWidth c)%nat.
Proof.
  unfold Cloth.buildParticles.
  rewrite (length_rows _ (Cloth.gridWidth c)).
  - rewrite length_seq. reflexivity.
  - intros r. rewrite length_map, length_seq. reflexivity.
Qed.

(** C8.  Take any loop state, whatever has happened to its cloth, and a
    viewport.  A press of Space calls reset with the origin
    [(width/2 - clothW/2, int(height*0.2))], the very origin the guarded
    first-frame initialisation computes under that viewport.  The cloth
    reset leaves is the cloth that initialising a new cloth of the same
    configuration at that origin gives: the same particles (count,
    positions, pins) and the same constraints; it is marked initialised,
    so the guard of the next frame does not initialise it again. *)
Theorem C8_reset_rebuilds_grid (g : Context) (t : Z) (mods : key.Modifiers)
    (s : LoopState) :
  let c := cloth s in
  let ox := Z.quot (maxX g) 2 - Z.quot clothW 2 in
  let oy := truncate (inject_Z (maxY g) * 0.2) in
  let new := Cloth.NewCloth (Cloth.width c) (Cloth.height c) (Cloth.spacing c)
               (Cloth.damping c) (Cloth.color c) in
  let fresh := cloth (guardedInit g (onCloth (fun _ => new) s)) in
  let afterSpace :=
    handleEvent g s (t, KeyEvent (key.mkEvent key.NameSpace mods key.Press)) in
  let rebuilt := cloth (guardedInit g afterSpace) in
  fresh = Cloth.Init new ox oy
  /\ cloth afterSpace = Cloth.Reset c ox oy
  /\ guardedInit g afterSpace = afterSpace
  /\ rebuilt = fresh
  /\ List.length (Cloth.particles rebuilt)
     = (Cloth.gridHeight new * Cloth.gridWidth new)%nat
  /\ map Cloth.position (Cloth.particles rebuilt)
     = map Cloth.position (Cloth.particles fresh)
  /\ map Cloth.pinned (Cloth.particles rebuilt)
     = map Cloth.pinned (Cloth.particles fresh)
  /\ Cloth.constraints rebuilt = Cloth.constraints fresh.
Proof.
  intros c ox oy new fresh afterSpace rebuilt.
  assert (Hfresh : fresh = Cloth.Init new ox oy) by reflexivity.
  assert (Hspace : cloth afterSpace = Cloth.Reset c ox oy) by reflexivity.
  assert (Hguard : guardedInit g afterSpace = afterSpace).
  { unfold guardedInit. rewrite Hspace. reflexivity. }
  assert (Hsame : rebuilt = fresh).
  { unfold rebuilt. rewrite Hguard, Hspace, Hfresh. reflexivity. }
  repeat split; try assumption; try (rewrite Hsame; reflexivity).
  rewrite Hsame, Hfresh. apply length_buildParticles.
Qed.

Example first_frame_builds_the_host_cloth :
  let c := cloth (guardedInit viewport0 initialState) in
  c = Cloth.Init (Cloth.NewCloth 1222 232 8 0.99 col) (-141) 116
  /\ List.length (Cloth.particles c) = (29 * 152)%nat.
Proof. split; vm_compute; reflexivity. Qed.

(** ** Further properties of the loop *)

(** *** Return of [loop] and exit of [main] *)

Lemma loop_runFrames (sim : Cloth.Simulation) (evs : list WindowEvent) :
  forall s, final (loop sim s evs) = runFrames sim s (framesOf evs).
Proof.
  induction evs as [|e evs IH]; intros s; [reflexivity|].
  destruct e as [err|f|]; cbn [loop framesOf].
  - reflexivity.
  - rewrite IH. reflexivity.
  - apply IH.
Qed.

Lemma loop_app (sim : Cloth.Simulation) (pre : list WindowEvent) :
  forall s post,
    noDestroyIn pre = true ->
    loop sim s (pre ++ post) = loop sim (final (loop sim s pre)) post
    /\ loop sim s pre = Blocked (final (loop sim s pre)).
Proof.
  induction pre as [|e pre IH]; intros s post H.
  - split; reflexivity.
  - cbn [noDestroyIn forallb] in H. apply andb_true_iff in H.
    destruct H as [He Hpre].
    destruct e as [err|f|]; [discriminate He | |];
      cbn [app loop]; apply IH; exact Hpre.
Qed.

(** X1.  [loop] goes on as long as no destroy event arrives, and returns
    at the first one, with that event's error: the events after it are
    never looked at. *)
Theorem loop_returns_at_first_destroy (sim : Cloth.Simulation)
    (s : LoopState) (pre post : list WindowEvent) (err : option string) :
  noDestroyIn pre = true ->
  loop sim s (pre ++ DestroyEvent err :: post)
  = Returned err (final (loop sim s pre))
  /\ loop sim s pre = Blocked (final (loop sim s pre)).
Proof.
  intros H.
  destruct (loop_app sim pre s (DestroyEvent err :: post) H) as [Happ Hpre].
  split; [| exact Hpre].
  rewrite Happ. reflexivity.
Qed.

Lemma loop_returns_at_first_destroy_witness :
  noDestroyIn [OtherWindowEvent; Frame (quietFrame viewport0 5)] = true
  /\ (loop still initialState
        ([OtherWindowEvent; Frame (quietFrame viewport0 5)]
         ++ DestroyEvent None :: [Frame (quietFrame viewport0 9)])
      = Returned None
          (final (loop still initialState
                    [OtherWindowEvent; Frame (quietFrame viewport0 5)]))
      /\ loop still initialState
           [OtherWindowEvent; Frame (quietFrame viewport0 5)]
         = Blocked
             (final (loop still initialState
                       [OtherWindowEvent; Frame (quietFrame viewport0 5)]))).
Proof.
  split; [reflexivity|].
  apply (loop_returns_at_first_destroy still initialState
           [OtherWindowEvent; Frame (quietFrame viewport0 5)]
           [Frame (quietFrame viewport0 9)] None).
  reflexivity.
Defined.

(** X2.  The state [loop] is in is the result of handling, one after the
    other, the frames delivered before the first destroy event: window
    events of other kinds change nothing, and a frame starts from the
    state the previous frame left. *)
Theorem loop_folds_frames (sim : Cloth.Simulation) (s : LoopState)
    (evs : list WindowEvent) :
  final (loop sim s evs)
  = fold_left (fun st f => frame sim f st) (framesOf evs) s
  /\ final (loop sim s (OtherWindowEvent :: evs)) = final (loop sim s evs)
  /\ (forall f, final (loop sim s (Frame f :: evs))
                = final (loop sim (frame sim f s) evs)).
Proof.
  split; [apply loop_runFrames|]. split; [reflexivity|].
  intros f. reflexivity.
Qed.

(** X3.  With profiling off, or its file created, [main] exits with
    status 0 when the first destroy event carries no error, dies with
    that error when it carries one, whatever follows it, and does not
    exit as long as no destroy event arrives.  When the profile file
    cannot be created, [main] dies with that error whatever the window
    would deliver. *)
Theorem main_exit (sim : Cloth.Simulation) (cpuprofile : string)
    (createErr : option string) (pre post : list WindowEvent)
    (err : option string) :
  (if String.eqb cpuprofile EmptyString then None else createErr) = None ->
  noDestroyIn pre = true ->
  main sim cpuprofile createErr (pre ++ DestroyEvent err :: post)
  = match err with None => ExitZero | Some e => Fatal e end
  /\ main sim cpuprofile createErr pre = NoExit
  /\ (forall c rest e evs, main sim (String c rest) (Some e) evs = Fatal e).
Proof.
  intros Hprof Hpre. unfold main. rewrite Hprof.
  destruct (loop_app sim pre initialState (DestroyEvent err :: post) Hpre)
    as [Happ Hblocked].
  split; [| split].
  - rewrite Happ. cbn [loop]. destruct err; reflexivity.
  - rewrite Hblocked. reflexivity.
  - intros c rest e evs. reflexivity.
Qed.

Lemma main_exit_witness :
  (if String.eqb "cpu.prof" EmptyString then None else @None string) = None
  /\ noDestroyIn [Frame (quietFrame viewport0 5)] = true
  /\ (main still "cpu.prof" None
        ([Frame (quietFrame viewport0 5)]
         ++ DestroyEvent (Some "lost"%string) :: [OtherWindowEvent])
      = match Some "lost"%string with
        | None => ExitZero
        | Some e => Fatal e
        end
      /\ main still "cpu.prof" None [Frame (quietFrame viewport0 5)] = NoExit
      /\ (forall c rest e evs,
             main still (String c rest) (Some e) evs = Fatal e)).
Proof.
  split; [reflexivity|]. split; [reflexivity|].
  apply (main_exit still "cpu.prof" None [Frame (quietFrame viewport0 5)]
           [OtherWindowEvent] (Some "lost"%string)); reflexivity.
Defined.

(** *** The hold timer *)

Lemma initTime_handleEvent (g : Context) (s : LoopState)
    (tev : Z * InputEvent) :
  initTime (handleEvent g s tev)
  = if isPress (snd tev) then fst tev else initTime s.
Proof.
  unfold handleEvent, isPress.
  destruct (snd tev) as [e|e|].
  - unfold handleKey.
    destruct (key.State_eqb (key.state e) key.Press);
      destruct (String.eqb (key.name e) key.NameSpace);
      destruct (String.eqb (key.name e) key.NameEscape); reflexivity.
  - unfold handlePointer, handlePointerButtons, handlePointerType.
    destruct (pointer.buttons e =? pointer.ButtonPrimary);
      [| destruct (pointer.buttons e =? pointer.ButtonSecondary)];
      destruct (pointer.type e);
      try reflexivity;
      destruct (pointer.modifiers e =? key.ModCtrl); reflexivity.
  - reflexivity.
Qed.

Lemma initTime_drainQueue (g : Context) (q : list (Z * InputEvent)) :
  forall s, initTime (drainQueue g q s) = lastPress (initTime s) q.
Proof.
  induction q as [|tev q IH]; intros s; [reflexivity|].
  change (drainQueue g (tev :: q) s)
    with (drainQueue g q (handleEvent g s tev)).
  rewrite IH, initTime_handleEvent. reflexivity.
Qed.

Lemma initTime_beforeEvents (f : FrameEvent) (s : LoopState) :
  initTime (beforeEvents f s) = initTime s.
Proof.
  unfold beforeEvents, accumulateForce, guardedInit.
  destruct (Cloth.isInitialized (cloth s)); cbn [negb].
  - destruct (Mouse.getLeftButton (mouse s)); reflexivity.
  - destruct (Mouse.getLeftButton
                (mouse (callInit (originX (maxX (gtx f)))
                                 (originY (maxY (gtx f))) s)));
      reflexivity.
Qed.

Lemma initTime_frame (sim : Cloth.Simulation) (f : FrameEvent)
    (s : LoopState) :
  initTime (frame sim f s) = lastPress (initTime s) (queue f).
Proof.
  unfold frame.
  change (initTime (callUpdate sim (gtx f) timeStep
                      (drainQueue (gtx f) (queue f) (beforeEvents f s))))
    with (initTime (drainQueue (gtx f) (queue f) (beforeEvents f s))).
  rewrite initTime_drainQueue, initTime_beforeEvents. reflexivity.
Qed.

Lemma lastPress_app (q1 q2 : list (Z * InputEvent)) :
  forall t0, lastPress t0 (q1 ++ q2) = lastPress (lastPress t0 q1) q2.
Proof.
  induction q1 as [|tev q1 IH]; intros t0; [reflexivity|].
  cbn [app lastPress]. apply IH.
Qed.

Lemma initTime_runFrames (sim : Cloth.Simulation) (fs : list FrameEvent) :
  forall s,
    initTime (runFrames sim s fs) = lastPress (initTime s) (timedInputsOf fs).
Proof.
  induction fs as [|f fs IH]; intros s; [reflexivity|].
  change (runFrames sim s (f :: fs)) with (runFrames sim (frame sim f s) fs).
  rewrite IH, initTime_frame.
  unfold timedInputsOf. cbn [flat_map]. rewrite lastPress_app. reflexivity.
Qed.

(** X4.  The loop's [initTime] is the clock reading taken at the last
    press event handled so far, whichever button went down and whether
    or not a button was already held; it is the zero time as long as
    there has been no press.  No other event, and no frame, touches
    it. *)
Theorem initTime_is_last_press (sim : Cloth.Simulation)
    (evs : list WindowEvent) :
  initTime (final (loop sim initialState evs))
  = lastPress 0 (timedInputsOf (framesOf evs)).
Proof.
  rewrite loop_runFrames, initTime_runFrames. reflexivity.
Qed.

(** *** Resets and closes over a run *)

Lemma keyCalls_app (a b : list Action) :
  keyCalls (a ++ b) = keyCalls a ++ keyCalls b.
Proof.
  induction a as [|x a IH]; simpl; [reflexivity|].
  destruct x; simpl; rewrite IH; reflexivity.
Qed.

Lemma keyCalls_keyActions (g : Context) (e : key.Event) :
  keyCalls (keyActions g e) = keyActions g e.
Proof.
  unfold keyActions.
  destruct (key.State_eqb (key.state e) key.Press
            && String.eqb (key.name e) key.NameSpace);
    destruct (String.eqb (key.name e) key.NameEscape); reflexivity.
Qed.

Lemma keyCalls_handleEvent (g : Context) (s : LoopState)
    (tev : Z * InputEvent) :
  keyCalls (trace (handleEvent g s tev))
  = keyCalls (trace s)
      ++ match snd tev with
         | KeyEvent e => keyActions g e
         | _ => []
         end.
Proof.
  rewrite trace_handleEvent, keyCalls_app. f_equal.
  destruct (snd tev) as [e|e|]; cbn [keyCalls eventActions].
  - apply keyCalls_keyActions.
  - unfold pointerActions. destruct (pointer.type e); reflexivity.
  - reflexivity.
Qed.

Lemma keyCalls_drainQueue (g : Context) (q : list (Z * InputEvent)) :
  forall s,
    keyCalls (trace (drainQueue g q s))
    = keyCalls (trace s)
        ++ flat_map (fun tev => match snd tev with
                                | KeyEvent e => keyActions g e
                                | _ => []
                                end) q.
Proof.
  induction q as [|tev q IH]; intros s.
  - cbn. symmetry. apply app_nil_r.
  - change (drainQueue g (tev :: q) s)
      with (drainQueue g q (handleEvent g s tev)).
    rewrite IH, keyCalls_handleEvent, <- app_assoc. reflexivity.
Qed.

Lemma keyCalls_frame (sim : Cloth.Simulation) (f : FrameEvent)
    (s : LoopState) :
  keyCalls (trace (frame sim f s)) = keyCalls (trace s) ++ frameKeyCalls f.
Proof.
  unfold frame. rewrite trace_callUpdate, keyCalls_app.
  rewrite keyCalls_drainQueue, trace_beforeEvents, keyCalls_app.
  cbn [keyCalls]. rewrite app_nil_r.
  destruct (Cloth.isInitialized (cloth s)); cbn [keyCalls];
    rewrite app_nil_r; reflexivity.
Qed.

Lemma keyCalls_runFrames (sim : Cloth.Simulation) (fs : list FrameEvent) :
  forall s,
    keyCalls (trace (runFrames sim s fs))
    = keyCalls (trace s) ++ flat_map frameKeyCalls fs.
Proof.
  induction fs as [|f fs IH]; intros s.
  - cbn. symmetry. apply app_nil_r.
  - change (runFrames sim s (f :: fs)) with (runFrames sim (frame sim f s) fs).
    rewrite IH, keyCalls_frame, <- app_assoc. reflexivity.
Qed.

(** X5.  Over a whole run, the resets and window closes the loop asks
    for are, in order, those of the key events queued in the frames it
    handled: one reset per press of Space, at the origin of the viewport
    of the frame the key arrived in, and one close per key event named
    Escape, be its state press or release; pointer events, frames and
    other keys ask for none. *)
Theorem key_calls_of_a_run (sim : Cloth.Simulation) (evs : list WindowEvent) :
  keyCalls (trace (final (loop sim initialState evs)))
  = flat_map frameKeyCalls (framesOf evs)
  /\ (forall g mods,
        keyActions g (key.mkEvent key.NameEscape mods key.Release)
        = [PerformClose]
        /\ keyActions g (key.mkEvent key.NameSpace mods key.Release) = [])
  /\ (forall g mods,
        keyActions g (key.mkEvent key.NameSpace mods key.Press)
        = [CallReset (originX (maxX g)) (originY (maxY g))]
        /\ keyActions g (key.mkEvent key.NameEscape mods key.Press)
           = [PerformClose]).
Proof.
  split; [| split].
  - rewrite loop_runFrames, keyCalls_runFrames. reflexivity.
  - intros g mods. split; reflexivity.
  - intros g mods. split; reflexivity.
Qed.

(** *** The scroll accumulator over a run *)

Lemma clampedSums_app (a b : list InputEvent) :
  forall acc hi,
    clampedSums acc hi (a ++ b)
    = clampedSums acc hi a ++ clampedSums (clampedTotal acc hi a) hi b.
Proof.
  induction a as [|ev a IH]; intros acc hi; [reflexivity|].
  cbn [app clampedSums clampedTotal].
  destruct (scrollDelta ev); [cbn [app]; rewrite IH; reflexivity | apply IH].
Qed.

Lemma clampedTotal_app (a b : list InputEvent) :
  forall acc hi,
    clampedTotal acc hi (a ++ b) = clampedTotal (clampedTotal acc hi a) hi b.
Proof.
  induction a as [|ev a IH]; intros acc hi; [reflexivity|].
  cbn [app clampedTotal]. destruct (scrollDelta ev); apply IH.
Qed.

Lemma scrollArgs_handleEvent (g : Context) (s : LoopState)
    (tev : Z * InputEvent) :
  scrollArgs (trace (handleEvent g s tev))
  = scrollArgs (trace s)
      ++ clampedSums (scrollY s) (Mouse.maxScrollY (mouse s)) [snd tev].
Proof.
  rewrite trace_handleEvent, scrollArgs_app. f_equal.
  destruct (snd tev) as [e|e|]; cbn [scrollArgs eventActions clampedSums
                                     scrollDelta].
  - unfold keyActions.
    destruct (key.State_eqb (key.state e) key.Press
              && String.eqb (key.name e) key.NameSpace);
      destruct (String.eqb (key.name e) key.NameEscape); reflexivity.
  - unfold pointerActions. destruct (pointer.type e); reflexivity.
  - reflexivity.
Qed.

Lemma scrollY_handleEvent (g : Context) (s : LoopState)
    (tev : Z * InputEvent) :
  scrollY (handleEvent g s tev)
  = clampedTotal (scrollY s) (Mouse.maxScrollY (mouse s)) [snd tev]
  /\ Mouse.maxScrollY (mouse (handleEvent g s tev))
     = Mouse.maxScrollY (mouse s).
Proof.
  unfold handleEvent.
  destruct (snd tev) as [e|e|]; cbn [clampedTotal scrollDelta].
  - unfold handleKey.
    destruct (key.State_eqb (key.state e) key.Press);
      destruct (String.eqb (key.name e) key.NameSpace);
      destruct (String.eqb (key.name e) key.NameEscape);
      split; reflexivity.
  - unfold handlePointer, handlePointerButtons, handlePointerType.
    destruct (pointer.buttons e =? pointer.ButtonPrimary);
      [| destruct (pointer.buttons e =? pointer.ButtonSecondary)];
      destruct (pointer.type e);
      try (split; reflexivity);
      destruct (pointer.modifiers e =? key.ModCtrl); split; reflexivity.
  - split; reflexivity.
Qed.

Lemma scroll_drainQueue (g : Context) (q : list (Z * InputEvent)) :
  forall s,
    scrollArgs (trace (drainQueue g q s))
    = scrollArgs (trace s)
        ++ clampedSums (scrollY s) (Mouse.maxScrollY (mouse s)) (map snd q)
    /\ scrollY (drainQueue g q s)
       = clampedTotal (scrollY s) (Mouse.maxScrollY (mouse s)) (map snd q)
    /\ Mouse.maxScrollY (mouse (drainQueue g q s))
       = Mouse.maxScrollY (mouse s).
Proof.
  induction q as [|tev q IH]; intros s.
  - cbn. rewrite app_nil_r. repeat split.
  - change (drainQueue g (tev :: q) s)
      with (drainQueue g q (handleEvent g s tev)).
    destruct (IH (handleEvent g s tev)) as (Ha & Hy & Hm).
    destruct (scrollY_handleEvent g s tev) as [Hy1 Hm1].
    rewrite Ha, Hy, Hm, scrollArgs_handleEvent, Hy1, Hm1.
    change (map snd (tev :: q)) with ([snd tev] ++ map snd q).
    rewrite clampedSums_app, clampedTotal_app, <- app_assoc.
    repeat split.
Qed.

Lemma scroll_beforeEvents (f : FrameEvent) (s : LoopState) :
  scrollArgs (trace (beforeEvents f s)) = scrollArgs (trace s)
  /\ scrollY (beforeEvents f s) = scrollY s
  /\ Mouse.maxScrollY (mouse (beforeEvents f s)) = Mouse.maxScrollY (mouse s).
Proof.
  split.
  - rewrite trace_beforeEvents, scrollArgs_app.
    destruct (Cloth.isInitialized (cloth s)); cbn [scrollArgs];
      apply app_nil_r.
  - unfold beforeEvents, accumulateForce, guardedInit.
    destruct (Cloth.isInitialized (cloth s)); cbn [negb].
    + destruct (Mouse.getLeftButton (mouse s)); split; reflexivity.
    + destruct (Mouse.getLeftButton
                  (mouse (callInit (originX (maxX (gtx f)))
                                   (originY (maxY (gtx f))) s)));
        split; reflexivity.
Qed.

Lemma scroll_frame (sim : Cloth.Simulation) (f : FrameEvent) (s : LoopState) :
  scrollArgs (trace (frame sim f s))
  = scrollArgs (trace s)
      ++ clampedSums (scrollY s) (Mouse.maxScrollY (mouse s))
           (map snd (queue f))
  /\ scrollY (frame sim f s)
     = clampedTotal (scrollY s) (Mouse.maxScrollY (mouse s))
         (map snd (queue f))
  /\ Mouse.maxScrollY (mouse (frame sim f s)) = Mouse.maxScrollY (mouse s).
Proof.
  destruct (scroll_drainQueue (gtx f) (queue f) (beforeEvents f s))
    as (Ha & Hy & Hm).
  destruct (scroll_beforeEvents f s) as (Ha0 & Hy0 & Hm0).
  rewrite Ha0, Hy0, Hm0 in Ha. rewrite Hy0, Hm0 in Hy. rewrite Hm0 in Hm.
  unfold frame. rewrite trace_callUpdate, scrollArgs_app, mouse_callUpdate.
  cbn [scrollArgs]. rewrite app_nil_r.
  repeat split; assumption.
Qed.

Lemma scroll_runFrames (sim : Cloth.Simulation) (fs : list FrameEvent) :
  forall s,
    scrollArgs (trace (runFrames sim s fs))
    = scrollArgs (trace s)
        ++ clampedSums (scrollY s) (Mouse.maxScrollY (mouse s)) (inputsOf fs)
    /\ scrollY (runFrames sim s fs)
       = clampedTotal (scrollY s) (Mouse.maxScrollY (mouse s)) (inputsOf fs)
    /\ Mouse.maxScrollY (mouse (runFrames sim s fs))
       = Mouse.maxScrollY (mouse s).
Proof.
  induction fs as [|f fs IH]; intros s.
  - cbn. rewrite app_nil_r. repeat split.
  - change (runFrames sim s (f :: fs)) with (runFrames sim (frame sim f s) fs).
    destruct (IH (frame sim f s)) as (Ha & Hy & Hm).
    destruct (scroll_frame sim f s) as (Ha1 & Hy1 & Hm1).
    rewrite Ha, Hy, Hm, Ha1, Hy1, Hm1.
    unfold inputsOf, timedInputsOf. cbn [flat_map]. rewrite map_app.
    rewrite clampedSums_app, clampedTotal_app, <- app_assoc.
    repeat split.
Qed.

(** X6.  Over a whole run, the values passed to [setScrollY] are the
    running sums of the scroll deltas, each clamped to [0, 200] before
    the next delta is added: a delta that would leave the range is cut,
    and the next one starts from the bound, not from the uncut sum.  The
    loop's accumulator is the last of these sums.  Events that are not
    scroll events contribute nothing. *)
Theorem scroll_is_running_clamped_sum (sim : Cloth.Simulation)
    (evs : list WindowEvent) :
  let s := final (loop sim initialState evs) in
  scrollArgs (trace s)
  = clampedSums 0 configuredMaxScrollY (inputsOf (framesOf evs))
  /\ scrollY s
     = clampedTotal 0 configuredMaxScrollY (inputsOf (framesOf evs)).
Proof.
  intros s. subst s. rewrite loop_runFrames.
  destruct (scroll_runFrames sim (framesOf evs) initialState) as (Ha & Hy & _).
  split; [exact Ha | exact Hy].
Qed.

(** *** Relations between the flags *)

Lemma flagsInv_initial : flagsInv initialState.
Proof. constructor; cbn; try reflexivity; intros H; discriminate H. Qed.

Lemma flagsInv_handleKey (g : Context) (e : key.Event) (s : LoopState) :
  flagsInv s -> flagsInv (handleKey g e s).
Proof.
  intros [H1 H2 H3 H4]. unfold handleKey.
  destruct (key.State_eqb (key.state e) key.Press);
    destruct (String.eqb (key.name e) key.NameSpace);
    destruct (String.eqb (key.name e) key.NameEscape);
    constructor; assumption.
Qed.

Lemma flagsInv_handlePointer (t : Z) (ev : pointer.Event) (s : LoopState) :
  flagsInv s -> flagsInv (handlePointer t ev s).
Proof.
  intros [H1 H2 H3 H4].
  destruct s as [sy it dl dr [mx my mpx mpy msy mhi fo lb rb dg ct] c tr].
  cbn in H1, H2, H3, H4.
  destruct ev as [ty b pos scr md].
  unfold handlePointer, handlePointerButtons, handlePointerType.
  cbn [pointer.type pointer.buttons pointer.modifiers].
  destruct (b =? pointer.ButtonPrimary);
    [| destruct (b =? pointer.ButtonSecondary)];
    destruct ty;
    try destruct (md =? key.ModCtrl);
    constructor; lazy; intros; try discriminate; auto.
Qed.

Lemma flagsInv_handleEvent (g : Context) (s : LoopState)
    (tev : Z * InputEvent) :
  flagsInv s -> flagsInv (handleEvent g s tev).
Proof.
  intros H. unfold handleEvent.
  assert (H0 : flagsInv (emit (Drain (snd tev)) s))
    by (destruct H; constructor; assumption).
  destruct (snd tev).
  - apply flagsInv_handleKey; exact H0.
  - apply flagsInv_handlePointer; exact H0.
  - exact H0.
Qed.

Lemma flagsInv_drainQueue (g : Context) (q : list (Z * InputEvent)) :
  forall s, flagsInv s -> flagsInv (drainQueue g q s).
Proof.
  induction q as [|tev q IH]; intros s H; [exact H|].
  apply IH, flagsInv_handleEvent, H.
Qed.

Lemma flagsInv_accumulateForce (t : Z) (s : LoopState) :
  flagsInv s -> flagsInv (accumulateForce t s).
Proof.
  intros H. unfold accumulateForce, Mouse.getLeftButton.
  destruct (Mouse.leftButton (mouse s)) eqn:E; [| exact H].
  destruct H as [H1 H2 H3 H4].
  constructor.
  - exact H1.
  - intros Hc. exfalso.
    change (Mouse.leftButton (mouse s) = false) in Hc. congruence.
  - exact H3.
  - intros _. exact E.
Qed.

Lemma flagsInv_beforeEvents (f : FrameEvent) (s : LoopState) :
  flagsInv s -> flagsInv (beforeEvents f s).
Proof.
  intros H. unfold beforeEvents.
  apply flagsInv_accumulateForce.
  unfold guardedInit.
  destruct (Cloth.isInitialized (cloth s)); cbn [negb]; [exact H|].
  destruct H as [H1 H2 H3 H4]. constructor; assumption.
Qed.

Lemma flagsInv_frame (sim : Cloth.Simulation) (f : FrameEvent)
    (s : LoopState) :
  flagsInv s -> flagsInv (frame sim f s).
Proof.
  intros H. unfold frame.
  destruct (flagsInv_drainQueue (gtx f) (queue f) _
              (flagsInv_beforeEvents f s H)) as [H1 H2 H3 H4].
  constructor; assumption.
Qed.

Lemma flagsInv_loop (sim : Cloth.Simulation) (evs : list WindowEvent) :
  forall s, flagsInv s -> flagsInv (final (loop sim s evs)).
Proof.
  induction evs as [|e evs IH]; intros s H; cbn [loop]; [exact H|].
  destruct e as [err|f|].
  - exact H.
  - apply IH, flagsInv_frame, H.
  - apply IH, H.
Qed.

(** X7.  At every point between window events, the interaction radius
    stored in the mouse equals the loop's own scroll accumulator: the
    two are only ever written together. *)
Theorem mouse_radius_follows_accumulator (sim : Cloth.Simulation)
    (evs : list WindowEvent) :
  let s := final (loop sim initialState evs) in
  Mouse.scrollY (mouse s) = scrollY s.
Proof.
  intros s. apply (fl_radius s), flagsInv_loop, flagsInv_initial.
Qed.

(** X8.  At every point between window events, the force is zero unless
    the left-button flag is set: the force only grows in frames that
    start with the flag set, and whatever clears the flag zeroes the
    force. *)
Theorem force_is_zero_unless_left_is_down (sim : Cloth.Simulation)
    (evs : list WindowEvent) :
  let s := final (loop sim initialState evs) in
  Mouse.leftButton (mouse s) = true \/ Mouse.force (mouse s) = 0%Q.
Proof.
  intros s.
  pose proof (fl_force s (flagsInv_loop sim evs _ flagsInv_initial)) as H.
  destruct (Mouse.leftButton (mouse s)); [left; reflexivity | right; auto].
Qed.

(** X9.  At every point between window events, the mouse's dragging flag
    is set only if the loop's [isDragging] is: the flag is a copy of the
    local, made at releases and at events that report exactly the
    primary button. *)
Theorem mouse_dragging_implies_isDragging (sim : Cloth.Simulation)
    (evs : list WindowEvent) :
  let s := final (loop sim initialState evs) in
  Mouse.dragging (mouse s) = false \/ isDragging s = true.
Proof.
  intros s.
  pose proof (fl_drag s (flagsInv_loop sim evs _ flagsInv_initial)) as H.
  destruct (Mouse.dragging (mouse s)); [right; auto | left; reflexivity].
Qed.

(** X10.  At every point between window events, the control-modifier
    flag is set only if the left-button flag is: it is raised by a press
    with exactly the Ctrl modifier, which raises the left-button flag
    too, and every release clears it. *)
Theorem ctrl_flag_implies_left_flag (sim : Cloth.Simulation)
    (evs : list WindowEvent) :
  let s := final (loop sim initialState evs) in
  Mouse.ctrlDown (mouse s) = false \/ Mouse.leftButton (mouse s) = true.
Proof.
  intros s.
  pose proof (fl_ctrl s (flagsInv_loop sim evs _ flagsInv_initial)) as H.
  destruct (Mouse.ctrlDown (mouse s)); [right; auto | left; reflexivity].
Qed.

(** *** One scroll step *)

Lemma clampScroll_between (a sum hi : Q) :
  (0 <= a)%Q -> (a <= hi)%Q ->
  ((a <= clampScroll sum hi)%Q /\ (clampScroll sum hi <= sum)%Q)
  \/ ((sum <= clampScroll sum hi)%Q /\ (clampScroll sum hi <= a)%Q).
Proof.
  intros Ha Hhi. unfold clampScroll.
  destruct (Qltb sum 0) eqn:E0.
  - apply Qltb_true in E0. right. split; lra.
  - apply Qltb_false in E0.
    destruct (Qltb hi sum) eqn:E1.
    + apply Qltb_true in E1. left. split; lra.
    + apply Qltb_false in E1.
      destruct (Qlt_le_dec sum a) as [Hlt | Hge].
      * right. split; lra.
      * left. split; lra.
Qed.

(** X11.  After any run, a scroll event leaves the accumulator between
    its old value and the sum the loop computed from it and the event's
    vertical delta: clamping never carries the accumulator past the sum,
    and never moves it away from the sum. *)
Theorem scroll_step_between (sim : Cloth.Simulation) (evs : list WindowEvent)
    (g : Context) (t : Z) (btns : pointer.Buttons) (pos : f32.Point)
    (dx dy : Q) (mods : key.Modifiers) :
  let s := final (loop sim initialState evs) in
  let ev := pointer.mkEvent pointer.Scroll btns pos (f32.Pt dx dy) mods in
  let s' := handleEvent g s (t, PointerEvent ev) in
  let sum := (scrollY s + dy)%Q in
  ((scrollY s <= scrollY s')%Q /\ (scrollY s' <= sum)%Q)
  \/ ((sum <= scrollY s')%Q /\ (scrollY s' <= scrollY s)%Q).
Proof.
  intros s ev s' sum.
  destruct (scrollInv_loop sim evs initialState scrollInv_initial)
    as [Hmax [Hlo Hhi] _ _].
  fold s in Hmax, Hlo, Hhi.
  destruct (scrollY_handleEvent g s (t, PointerEvent ev)) as [Hy _].
  fold s' in Hy.
  cbn [snd clampedTotal scrollDelta ev pointer.type pointer.scroll f32.Y]
    in Hy.
  rewrite Hmax in Hy. rewrite Hy.
  apply clampScroll_between; assumption.
Qed.

(** *** The switch on the buttons *)

(** X12.  Whatever the type of a pointer event, scroll and release
    included: if it reports exactly the primary button, then after it
    the left-button flag is set, the mouse is at the event's position
    and the mouse's dragging flag is the loop's [isDragging]; if it
    reports exactly the secondary button, the right-button flag is set
    and the mouse is at the event's position.  For a move event the
    position is then updated twice, so that the previous position kept
    by the mouse is the event's position too. *)
Theorem button_event_tracks_position (g : Context) (s : LoopState) (t : Z)
    (ty : pointer.Kind) (pos scr : f32.Point) (mods : key.Modifiers) :
  (let ev := pointer.mkEvent ty pointer.ButtonPrimary pos scr mods in
   let s' := handleEvent g s (t, PointerEvent ev) in
   Mouse.leftButton (mouse s') = true
   /\ Mouse.x (mouse s') = f32.X pos
   /\ Mouse.y (mouse s') = f32.Y pos
   /\ Mouse.dragging (mouse s') = isDragging s'
   /\ Mouse.px (mouse s')
      = match ty with pointer.Move => f32.X pos | _ => Mouse.x (mouse s) end
   /\ Mouse.py (mouse s')
      = match ty with pointer.Move => f32.Y pos | _ => Mouse.y (mouse s) end)
  /\ (let ev := pointer.mkEvent ty pointer.ButtonSecondary pos scr mods in
      let s' := handleEvent g s (t, PointerEvent ev) in
      Mouse.rightButton (mouse s') = true
      /\ Mouse.x (mouse s') = f32.X pos
      /\ Mouse.y (mouse s') = f32.Y pos
      /\ Mouse.px (mouse s')
         = match ty with pointer.Move => f32.X pos | _ => Mouse.x (mouse s) end
      /\ Mouse.dragging (mouse s')
         = match ty with
           | pointer.Release => false
           | _ => Mouse.dragging (mouse s)
           end).
Proof.
  split; intros ev s'; subst s' ev;
    unfold handleEvent, handlePointer, handlePointerButtons, handlePointerType;
    cbn [snd fst pointer.type pointer.buttons pointer.modifiers];
    destruct ty; try destruct (mods =? key.ModCtrl); repeat split.
Qed.

(** X13.  The switch on the buttons compares for equality.  An event
    whose buttons are neither exactly the primary nor exactly the
    secondary one (none, the tertiary one, or several at once) gets no
    further: a drag event then only sets the loop's [isDragging] and
    leaves the mouse, position included, as it was, and so do enter,
    leave and cancel events. *)
Theorem other_buttons_leave_mouse (g : Context) (s : LoopState) (t : Z)
    (b : pointer.Buttons) (pos scr : f32.Point) (mods : key.Modifiers) :
  b <> pointer.ButtonPrimary ->
  b <> pointer.ButtonSecondary ->
  let after ty :=
    handleEvent g s (t, PointerEvent (pointer.mkEvent ty b pos scr mods)) in
  (mouse (after pointer.Drag) = mouse s
   /\ isDragging (after pointer.Drag) = true)
  /\ mouse (after pointer.Enter) = mouse s
  /\ mouse (after pointer.Leave) = mouse s
  /\ mouse (after pointer.Cancel) = mouse s.
Proof.
  intros Hp Hs after. subst after.
  apply Z.eqb_neq in Hp. apply Z.eqb_neq in Hs.
  unfold handleEvent, handlePointer, handlePointerButtons, handlePointerType.
  cbn [snd fst pointer.type pointer.buttons pointer.modifiers].
  rewrite Hp, Hs. repeat split.
Qed.

Lemma other_buttons_leave_mouse_witness :
  pointer.ButtonPrimary + pointer.ButtonSecondary <> pointer.ButtonPrimary
  /\ pointer.ButtonPrimary + pointer.ButtonSecondary <> pointer.ButtonSecondary
  /\ (let after ty :=
        handleEvent viewport0 bothDown
          (3000, PointerEvent
                   (pointer.mkEvent ty
                      (pointer.ButtonPrimary + pointer.ButtonSecondary)
                      (f32.Pt 50 60) (f32.Pt 0 0) 0)) in
      (mouse (after pointer.Drag) = mouse bothDown
       /\ isDragging (after pointer.Drag) = true)
      /\ mouse (after pointer.Enter) = mouse bothDown
      /\ mouse (after pointer.Leave) = mouse bothDown
      /\ mouse (after pointer.Cancel) = mouse bothDown).
Proof.
  split; [vm_compute; discriminate|]. split; [vm_compute; discriminate|].
  apply (other_buttons_leave_mouse viewport0 bothDown 3000
           (pointer.ButtonPrimary + pointer.ButtonSecondary)
           (f32.Pt 50 60) (f32.Pt 0 0) 0);
    vm_compute; discriminate.
Defined.

(** *** The force over a hold *)

(** X14.  While the left button is down and nothing is queued, each
    frame adds to the force the time since the press (the frame's clock
    reading minus [initTime], in seconds), not the time since the
    previous frame; [initTime] and the left-button flag stay as they
    are. *)
Theorem force_in_a_quiet_hold (sim : Cloth.Simulation) (g : Context)
    (clocks : list Z) (s : LoopState) :
  Mouse.leftButton (mouse s) = true ->
  let s' := runFrames sim s (map (quietFrame g) clocks) in
  Mouse.force (mouse s')
  = fold_left (fun acc t => (acc + Seconds (Sub t (initTime s)))%Q)
              clocks (Mouse.force (mouse s))
  /\ Mouse.leftButton (mouse s') = true
  /\ initTime s' = initTime s.
Proof.
  revert s. induction clocks as [|t clocks IH]; intros s Hl s'.
  - repeat split. exact Hl.
  - subst s'.
    change (runFrames sim s (map (quietFrame g) (t :: clocks)))
      with (runFrames sim (frame sim (quietFrame g t) s)
              (map (quietFrame g) clocks)).
    destruct (force_frame sim (quietFrame g t) s Hl eq_refl) as [Hf Hl1].
    pose proof (initTime_frame sim (quietFrame g t) s) as Hi.
    cbn [quietFrame queue lastPress] in Hi.
    destruct (IH (frame sim (quietFrame g t) s) Hl1) as (IHf & IHl & IHi).
    rewrite IHf, IHi, Hf, Hi.
    repeat split. exact IHl.
Qed.

Lemma force_in_a_quiet_hold_witness :
  Mouse.leftButton (mouse pressedAt0) = true
  /\ (let s' := runFrames still pressedAt0
                  (map (quietFrame viewport0) [500000000; 2000000000]) in
      Mouse.force (mouse s')
      = fold_left (fun acc t => (acc + Seconds (Sub t (initTime pressedAt0)))%Q)
                  [500000000; 2000000000] (Mouse.force (mouse pressedAt0))
      /\ Mouse.leftButton (mouse s') = true
      /\ initTime s' = initTime pressedAt0).
Proof.
  split; [vm_compute; reflexivity|].
  apply (force_in_a_quiet_hold still viewport0 [500000000; 2000000000]
           pressedAt0).
  vm_compute. reflexivity.
Defined.

Lemma idle_quiet_frame (sim : Cloth.Simulation) (g : Context) (t : Z)
    (s : LoopState) :
  Mouse.leftButton (mouse s) = false ->
  mouse (frame sim (quietFrame g t) s) = mouse s
  /\ scrollY (frame sim (quietFrame g t) s) = scrollY s
  /\ initTime (frame sim (quietFrame g t) s) = initTime s
  /\ deltaTime (frame sim (quietFrame g t) s) = deltaTime s
  /\ isDragging (frame sim (quietFrame g t) s) = isDragging s.
Proof.
  intros H.
  unfold frame, beforeEvents, accumulateForce, guardedInit,
    Mouse.getLeftButton.
  cbn [quietFrame queue gtx now drainQueue fold_left].
  destruct (Cloth.isInitialized (cloth s)); cbn [negb].
  - rewrite H. repeat split.
  - change (Mouse.leftButton
              (mouse (callInit (originX (maxX g)) (originY (maxY g)) s)))
      with (Mouse.leftButton (mouse s)).
    rewrite H. repeat split.
Qed.

(** X15.  While the left-button flag is clear and nothing is queued,
    frames change neither the pointer state nor the loop's locals: the
    force does not grow and [deltaTime] keeps its old value. *)
Theorem idle_frames_change_nothing (sim : Cloth.Simulation) (g : Context)
    (clocks : list Z) (s : LoopState) :
  Mouse.leftButton (mouse s) = false ->
  let s' := runFrames sim s (map (quietFrame g) clocks) in
  mouse s' = mouse s
  /\ scrollY s' = scrollY s
  /\ initTime s' = initTime s
  /\ deltaTime s' = deltaTime s
  /\ isDragging s' = isDragging s.
Proof.
  revert s. induction clocks as [|t clocks IH]; intros s Hl s'.
  - repeat split.
  - subst s'.
    change (runFrames sim s (map (quietFrame g) (t :: clocks)))
      with (runFrames sim (frame sim (quietFrame g t) s)
              (map (quietFrame g) clocks)).
    destruct (idle_quiet_frame sim g t s Hl) as (Hm & Hy & Hi & Hd & Hg).
    assert (Hl1 : Mouse.leftButton (mouse (frame sim (quietFrame g t) s))
                  = false) by (rewrite Hm; exact Hl).
    destruct (IH (frame sim (quietFrame g t) s) Hl1)
      as (IHm & IHy & IHi & IHd & IHg).
    rewrite IHm, IHy, IHi, IHd, IHg, Hm, Hy, Hi, Hd, Hg.
    repeat split.
Qed.

Lemma idle_frames_change_nothing_witness :
  Mouse.leftButton (mouse initialState) = false
  /\ (let s' := runFrames still initialState
                  (map (quietFrame viewport0) [500000000; 2000000000]) in
      mouse s' = mouse initialState
      /\ scrollY s' = scrollY initialState
      /\ initTime s' = initTime initialState
      /\ deltaTime s' = deltaTime initialState
      /\ isDragging s' = isDragging initialState).
Proof.
  split; [vm_compute; reflexivity|].
  apply (idle_frames_change_nothing still viewport0 [500000000; 2000000000]
           initialState).
  vm_compute. reflexivity.
Defined.

(** *** The control modifier *)

(** X16.  A press raises the control-modifier flag exactly when its
    modifiers are the Ctrl bit and nothing else (Ctrl together with
    Shift, say, does not count), and never clears it: after a press the
    flag is set iff it was set before or the modifiers equal
    [ModCtrl]. *)
Theorem ctrl_needs_exact_modifier (g : Context) (s : LoopState) (t : Z)
    (b : pointer.Buttons) (pos scr : f32.Point) (mods : key.Modifiers) :
  let ev := pointer.mkEvent pointer.Press b pos scr mods in
  let s' := handleEvent g s (t, PointerEvent ev) in
  Mouse.ctrlDown (mouse s') = (mods =? key.ModCtrl) || Mouse.ctrlDown (mouse s).
Proof.
  intros ev s'. subst s' ev.
  unfold handleEvent, handlePointer, handlePointerButtons, handlePointerType.
  cbn [snd fst pointer.type pointer.buttons pointer.modifiers].
  destruct (b =? pointer.ButtonPrimary);
    [| destruct (b =? pointer.ButtonSecondary)];
    destruct (mods =? key.ModCtrl); reflexivity.
Qed.
